(** * Verification of the care2data retrieval-augmented narrative pipeline

    Shallow embedding of the retrieval core of the repository:
    - [src/rag_clinical.py]: [build_semantic_query], [vector_search],
      [retrieve_for_case], [format_context_for_llm];
    - [src/vector_ingestion.py]: [chunk_markdown_file];
    - [src/clinical_narrative_engine.py]: [_extract_field].

    Python [str] values are modelled as lists of ASCII characters
    ([pystr]); indices and lengths are counted in characters, as Python
    does for code points. *)

From Stdlib Require Import List Ascii String ZArith Bool Lia.
From Stdlib Require Import Numbers.DecimalString Sorting.Sorted.
Import ListNotations.
Open Scope list_scope.

(* ================================================================== *)
(** ** Python string primitives *)

Definition pystr := list ascii.

(** Conversion of a Rocq string literal into a [pystr]. *)
Definition str (s : string) : pystr := list_ascii_of_string s.

Definition chr (n : nat) : ascii := ascii_of_nat n.

(** [str.isspace] / regex [\s] restricted to ASCII:
    [\t \n \v \f \r], the separators [\x1c]..[\x1f], and the space. *)
Definition is_space (c : ascii) : bool :=
  let n := nat_of_ascii c in
  ((9 <=? n) && (n <=? 13)) || ((28 <=? n) && (n <=? 31)) || (n =? 32).

(** [s.strip()] *)
Fixpoint lstrip (s : pystr) : pystr :=
  match s with
  | [] => []
  | c :: s' => if is_space c then lstrip s' else s
  end.

Definition py_strip (s : pystr) : pystr := rev (lstrip (rev (lstrip s))).

(** [s.split()] with no argument: split on runs of whitespace and drop
    empty pieces.  [split_ws_aux s] returns the word the string starts
    with (possibly empty) and the words after it. *)
Definition cons_word (w : pystr) (ws : list pystr) : list pystr :=
  match w with
  | [] => ws
  | _ => w :: ws
  end.

Fixpoint split_ws_aux (s : pystr) : pystr * list pystr :=
  match s with
  | [] => ([], [])
  | c :: s' =>
      let (w, ws) := split_ws_aux s' in
      if is_space c then ([], cons_word w ws) else (c :: w, ws)
  end.

Definition py_split_ws (s : pystr) : list pystr :=
  let (w, ws) := split_ws_aux s in cons_word w ws.

(** [sep.join(l)] *)
Fixpoint py_join (sep : pystr) (l : list pystr) : pystr :=
  match l with
  | [] => []
  | [x] => x
  | x :: l' => x ++ sep ++ py_join sep l'
  end.

(** [s.split(sep)] for a one-character separator: every occurrence
    splits, empty pieces are kept. *)
Fixpoint py_split_char (sep : ascii) (s : pystr) : list pystr :=
  match s with
  | [] => [[]]
  | c :: s' =>
      if Ascii.eqb c sep then [] :: py_split_char sep s'
      else match py_split_char sep s' with
           | [] => [[c]]
           | w :: ws => (c :: w) :: ws
           end
  end.

Fixpoint is_prefix (x s : pystr) : bool :=
  match x, s with
  | [], _ => true
  | a :: x', b :: s' => Ascii.eqb a b && is_prefix x' s'
  | _ :: _, [] => false
  end.

(** [s.find(x)] ([None] stands for [-1]) and [x in s]. *)
Fixpoint py_find_from (x s : pystr) (i : nat) : option nat :=
  if is_prefix x s then Some i
  else match s with
       | [] => None
       | _ :: s' => py_find_from x s' (S i)
       end.

Definition py_find (x s : pystr) : option nat := py_find_from x s 0.

Definition py_in (x s : pystr) : bool :=
  match py_find x s with Some _ => true | None => false end.

(** [s[i:j]] for [0 <= i <= j]. *)
Definition py_slice (s : pystr) (i j : nat) : pystr := firstn (j - i) (skipn i s).

(** Substring occurrence, as a proposition. *)
Definition occurs_in (x s : pystr) : Prop := exists pre post, s = pre ++ x ++ post.

(* ================================================================== *)
(** ** Query Composer: [ClinicalRAGRetriever.build_semantic_query] *)

Definition nl : string := String (Ascii.ascii_of_nat 10) EmptyString.

(** [age_risk = "elderly" if age >= 65 else "adult"] *)
Definition age_risk_of (age : Z) : pystr :=
  if (65 <=? age)%Z then str "elderly" else str "adult".

(** The [duration] local of the source. *)
Definition duration_of (days : Z) : pystr :=
  if (days <=? 7)%Z then str "short-term"
  else if (days <=? 30)%Z then str "acute"
  else str "chronic prolonged".

(** The f-string of the source, before whitespace is cleaned; the two
    line breaks are followed by the 8 spaces of indentation. *)
Definition query_template (drug_name stop_reason age_risk duration : pystr) : pystr :=
  drug_name ++ str " " ++ stop_reason
  ++ str (" adverse effect mechanism toxicity " ++ nl ++ "        ")
  ++ age_risk ++ str " age risk " ++ duration
  ++ str (" duration pathophysiology " ++ nl
          ++ "        clinical manifestation syndrome complication serious").

Definition build_semantic_query (drug_name stop_reason : pystr) (age days : Z)
    (gender : pystr) : pystr :=
  let age_risk := age_risk_of age in
  let duration := duration_of days in
  let query := query_template drug_name stop_reason age_risk duration in
  py_join (str " ") (py_split_ws query).

(** Whitespace normalisation [" ".join(s.split())]. *)
Definition normalize_ws (s : pystr) : pystr := py_join (str " ") (py_split_ws s).

(* ================================================================== *)
(** ** Narrative Post-Processor: [ClinicalNarrativeEngine._extract_field] *)

Definition fallback_text : pystr := str "See full narrative".

Fixpoint extract_field (text : pystr) (keywords : list pystr) : pystr :=
  match keywords with
  | [] => fallback_text
  | keyword :: rest =>
      if py_in keyword text then
        match py_find keyword text with
        | Some start =>
            let section := py_slice text start (start + 500) in
            let sentences := py_split_char "." section in
            if 1 <? List.length sentences
            then firstn 200 (py_strip (nth 1 sentences []))
            else extract_field text rest
        | None => extract_field text rest
        end
      else extract_field text rest
  end.

(* ================================================================== *)
(** ** Regular expressions of [chunk_markdown_file]

    [re.search] tries the start positions of the subject from left to
    right and returns the first one at which the pattern matches. *)

Fixpoint search_from {A} (f : pystr -> option A) (s : pystr) : option A :=
  match f s with
  | Some a => Some a
  | None => match s with [] => None | _ :: s' => search_from f s' end
  end.

(** Backtracking of a greedy quantifier: try [k], [k-1], ..., [0]. *)
Fixpoint try_desc {A} (f : nat -> option A) (k : nat) : option A :=
  match f k with
  | Some a => Some a
  | None => match k with 0 => None | S k' => try_desc f k' end
  end.

Fixpoint take_while (p : ascii -> bool) (s : pystr) : pystr :=
  match s with
  | [] => []
  | c :: s' => if p c then c :: take_while p s' else []
  end.

Definition newline : ascii := chr 10.

Definition not_newline (c : ascii) : bool := negb (Ascii.eqb c newline).

(** [.+] without DOTALL, greedy, at the start of [r]. *)
Definition dotplus_at (r : pystr) : option pystr :=
  match r with
  | c :: _ => if not_newline c then Some (take_while not_newline r) else None
  | [] => None
  end.

(** [\s*(.+)] at the start of [r]: group 2. *)
Definition ws_then_dotplus (r : pystr) : option pystr :=
  try_desc (fun k => dotplus_at (skipn k r)) (List.length (take_while is_space r)).

(** [(DRUG NAME|SYNDROME):\s*(.+)] anchored at the start of [s]. *)
Definition name_match_at (s : pystr) : option pystr :=
  if is_prefix (str "DRUG NAME:") s then ws_then_dotplus (skipn 10 s)
  else if is_prefix (str "SYNDROME:") s then ws_then_dotplus (skipn 9 s)
  else None.

Definition is_upper_or_space (c : ascii) : bool :=
  let n := nat_of_ascii c in ((65 <=? n) && (n <=? 90)) || is_space c.

(** Lookahead [\n[A-Z\s]+:]: the colon can only follow the longest run
    of the class, since the colon is not in the class. *)
Definition header_ahead (t : pystr) : bool :=
  match t with
  | c :: t' =>
      Ascii.eqb c newline &&
      (let run := take_while is_upper_or_space t' in
       (1 <=? List.length run) &&
       match nth_error t' (List.length run) with
       | Some d => Ascii.eqb d ":"
       | None => false
       end)
  | [] => false
  end.

(** [$] without MULTILINE: end of the subject, or before its final newline. *)
Definition dollar_ahead (t : pystr) : bool :=
  match t with
  | [] => true
  | [c] => Ascii.eqb c newline
  | _ => false
  end.

(** Lazy [(.*?)] with DOTALL followed by [(?=\n[A-Z\s]+:|$)]. *)
Fixpoint lazy_body (b : pystr) : pystr :=
  if header_ahead b || dollar_ahead b then []
  else match b with
       | [] => []
       | c :: b' => c :: lazy_body b'
       end.

(** [{section}:\s*\n(.*?)(?=\n[A-Z\s]+:|$)] anchored at the start of [s]:
    group 1.  The greedy [\s*] gives back characters until a newline
    follows it. *)
Definition section_match_at (section s : pystr) : option pystr :=
  if is_prefix (section ++ str ":") s then
    let r := skipn (List.length section + 1) s in
    match try_desc (fun k => match nth_error r k with
                             | Some c => if Ascii.eqb c newline then Some k else None
                             | None => None
                             end)
                   (List.length (take_while is_space r)) with
    | Some k => Some (lazy_body (skipn (S k) r))
    | None => None
    end
  else None.

Definition section_search (section content : pystr) : option pystr :=
  search_from (section_match_at section) content.

Definition name_search (content : pystr) : option pystr :=
  search_from name_match_at content.

(* ================================================================== *)
(** ** Chunker: [MedicalKnowledgeVectorizer.chunk_markdown_file] *)

(** [s.rfind(c)] for a single character ([None] stands for [-1]). *)
Fixpoint py_rfind_char_from (c : ascii) (s : pystr) (i : nat) : option nat :=
  match s with
  | [] => None
  | d :: s' =>
      match py_rfind_char_from c s' (S i) with
      | Some j => Some j
      | None => if Ascii.eqb d c then Some i else None
      end
  end.

Definition py_rfind_char (c : ascii) (s : pystr) : option nat := py_rfind_char_from c s 0.

(** [Path(p).name]: the last component of a path without trailing slash. *)
Definition path_name (p : pystr) : pystr := last (py_split_char "/" p) [].

(** [Path(p).stem]: [name[:i]] when [i = name.rfind('.')] satisfies
    [0 < i < len(name) - 1], otherwise [name]. *)
Definition path_stem (p : pystr) : pystr :=
  let name := path_name p in
  match py_rfind_char "." name with
  | Some i => if (0 <? i) && (i <? List.length name - 1) then firstn i name else name
  | None => name
  end.

(** The chunk dictionaries [{"section", "text", "name"}]. *)
Record chunk_dict := mk_chunk_dict {
  cd_section : pystr;
  cd_text : pystr;
  cd_name : pystr
}.

Definition drug_sections : list pystr :=
  map str ["MECHANISM OF ACTION"; "COMMON ADVERSE EFFECTS"; "SERIOUS ADVERSE EFFECTS";
           "RISK FACTORS"; "CONTRAINDICATIONS"; "MONITORING"; "DRUG INTERACTIONS"]%string.

Definition syndrome_sections : list pystr :=
  map str ["KEY SYMPTOMS"; "PATHOPHYSIOLOGY"; "RISK FACTORS"; "DIAGNOSTIC MARKERS";
           "CLINICAL ACTION"; "COMPLICATIONS"; "SEVERITY"]%string.

Definition pystr_eqb (a b : pystr) : bool :=
  if list_eq_dec ascii_dec a b then true else false.

Definition sections_for (document_type : pystr) : list pystr :=
  if pystr_eqb document_type (str "drug") then drug_sections else syndrome_sections.

Definition doc_name_of (file_path content : pystr) : pystr :=
  match name_search content with
  | Some g => py_strip g
  | None => path_stem file_path
  end.

(** The [for section in sections] loop: one chunk per matching section,
    in the order of [sections]. *)
Fixpoint section_chunks (doc_name content : pystr) (sections : list pystr)
    : list chunk_dict :=
  match sections with
  | [] => []
  | section :: rest =>
      match section_search section content with
      | Some g =>
          let section_text := py_strip g in
          let chunk_text := str "Document: " ++ doc_name ++ str (nl ++ "Section: ")
                            ++ section ++ str (nl ++ nl) ++ section_text in
          mk_chunk_dict section chunk_text doc_name
          :: section_chunks doc_name content rest
      | None => section_chunks doc_name content rest
      end
  end.

(** [read_file] is the file system: the text [open(file_path).read()]
    returns. *)
Definition chunk_markdown_file (read_file : pystr -> pystr)
    (file_path document_type : pystr) : list chunk_dict :=
  let content := read_file file_path in
  let doc_name := doc_name_of file_path content in
  let sections := sections_for document_type in
  let full_text := str "Document: " ++ doc_name ++ str (nl ++ nl) ++ content in
  mk_chunk_dict (str "FULL_DOCUMENT") full_text doc_name
  :: section_chunks doc_name content sections.

(* ================================================================== *)
(** ** Knowledge Store: [ClinicalRAGRetriever.vector_search]

    The collection holds the documents inserted by the ingestion, in
    insertion order.  The similarity [sim] of the vector index (cosine for
    the index of [create_vector_index]) is a parameter; a score is a [Z]
    since only the order of scores matters. *)

Record stored_doc := mk_stored_doc {
  sd_document_type : pystr;
  sd_name : pystr;
  sd_section : pystr;
  sd_chunk_text : pystr;
  sd_embedding : list Z
}.

Record RetrievedChunk := mk_retrieved {
  rc_document_type : pystr;
  rc_name : pystr;
  rc_section : pystr;
  rc_chunk_text : pystr;
  rc_score : Z
}.

(** Stable insertion by descending score. *)
Fixpoint insert_desc (x : stored_doc * Z) (l : list (stored_doc * Z)) : list (stored_doc * Z) :=
  match l with
  | [] => [x]
  | y :: l' => if (snd y <=? snd x)%Z then x :: l else y :: insert_desc x l'
  end.

Fixpoint sort_desc (l : list (stored_doc * Z)) : list (stored_doc * Z) :=
  match l with
  | [] => []
  | x :: l' => insert_desc x (sort_desc l')
  end.

(** The [$vectorSearch] stage with [limit = top_k]: the [top_k] documents
    of the whole collection with the highest score.  This is the exact
    search; [numCandidates = top_k * 10] only tunes the approximation. *)
Definition vector_search_stage (sim : list Z -> list Z -> Z) (collection : list stored_doc)
    (query_embedding : list Z) (top_k : nat) : list (stored_doc * Z) :=
  firstn top_k (sort_desc (map (fun d => (d, sim query_embedding (sd_embedding d))) collection)).

(** [if document_type:] -- [None] and the empty string add no stage. *)
Definition match_stage (document_type : option pystr) (l : list (stored_doc * Z))
    : list (stored_doc * Z) :=
  match document_type with
  | Some ((_ :: _) as t) => filter (fun p => pystr_eqb (sd_document_type (fst p)) t) l
  | _ => l
  end.

Definition project (p : stored_doc * Z) : RetrievedChunk :=
  mk_retrieved (sd_document_type (fst p)) (sd_name (fst p)) (sd_section (fst p))
               (sd_chunk_text (fst p)) (snd p).

(** The pipeline [$vectorSearch], then [$match] (inserted at index 1),
    then [$project]. *)
Definition vector_search (sim : list Z -> list Z -> Z) (collection : list stored_doc)
    (query_embedding : list Z) (document_type : option pystr) (top_k : nat)
    : list RetrievedChunk :=
  map project (match_stage document_type (vector_search_stage sim collection query_embedding top_k)).

(* ================================================================== *)
(** ** Retriever: [ClinicalRAGRetriever.retrieve_for_case]

    The retriever runs in a small state monad over the world it touches:
    the collection and a log of the calls to the embedding model and the
    store.  Console output ([print]) is not modelled. *)

Inductive event :=
| EvEmbed (text : pystr)
| EvSearch (query_embedding : list Z) (document_type : option pystr) (top_k : nat).

Record world := mk_world {
  w_collection : list stored_doc;
  w_log : list event
}.

Definition M (A : Type) := world -> A * world.

Definition ret {A} (a : A) : M A := fun w => (a, w).

Definition bind {A B} (m : M A) (f : A -> M B) : M B :=
  fun w => let (a, w') := m w in f a w'.

Notation "x <- m ;; k" := (bind m (fun x => k)) (at level 61, m at next level, right associativity).

Definition log_event (e : event) (w : world) : world :=
  mk_world (w_collection w) (w_log w ++ [e]).

Section Retriever.

(** The embedding model ([TextEmbedding.embed]) and the similarity of the
    vector index. *)
Variable embed : pystr -> list Z.
Variable sim : list Z -> list Z -> Z.

Definition create_query_embedding (query : pystr) : M (list Z) :=
  fun w => (embed query, log_event (EvEmbed query) w).

Definition vector_search_op (query_embedding : list Z) (document_type : option pystr)
    (top_k : nat) : M (list RetrievedChunk) :=
  fun w => (vector_search sim (w_collection w) query_embedding document_type top_k,
            log_event (EvSearch query_embedding document_type top_k) w).

Record context_item := mk_item {
  ci_name : pystr;
  ci_section : pystr;
  ci_text : pystr;
  ci_score : Z
}.

Definition to_item (c : RetrievedChunk) : context_item :=
  mk_item (rc_name c) (rc_section c) (rc_chunk_text c) (rc_score c).

(** The [context] dictionary. *)
Record context_bundle := mk_bundle {
  b_patient_id : pystr;
  b_drug_name : pystr;
  b_stop_reason : pystr;
  b_age : Z;
  b_days : Z;
  b_gender : pystr;
  b_query : pystr;
  b_drug_context : list context_item;
  b_syndrome_context : list context_item
}.

Definition retrieve_for_case (patient_id drug_name stop_reason : pystr) (age days : Z)
    (gender : pystr) (drug_chunks syndrome_chunks : nat) : M context_bundle :=
  let query := build_semantic_query drug_name stop_reason age days gender in
  query_embedding <- create_query_embedding query ;;
  drug_results <- vector_search_op query_embedding (Some (str "drug")) drug_chunks ;;
  syndrome_results <- vector_search_op query_embedding (Some (str "syndrome")) syndrome_chunks ;;
  ret (mk_bundle patient_id drug_name stop_reason age days gender query
                 (map to_item drug_results) (map to_item syndrome_results)).

(** The call with the default arguments [gender=""], [drug_chunks=5],
    [syndrome_chunks=5] left out. *)
Definition retrieve_for_case_defaults (patient_id drug_name stop_reason : pystr)
    (age days : Z) : M context_bundle :=
  retrieve_for_case patient_id drug_name stop_reason age days [] 5 5.

End Retriever.

(* ================================================================== *)
(** ** Context Formatter: [ClinicalRAGRetriever.format_context_for_llm] *)

Definition nat_to_pystr (n : nat) : pystr := str (NilEmpty.string_of_uint (Nat.to_uint n)).

(** [for i, chunk in enumerate(items, i)]: each item adds
    [f"[{label} Knowledge {i}] {name} - {section}\n"] and [f"{text}\n\n"]. *)
Fixpoint format_items (label : pystr) (i : nat) (items : list context_item) : pystr :=
  match items with
  | [] => []
  | c :: rest =>
      (str "[" ++ label ++ str " Knowledge " ++ nat_to_pystr i ++ str "] "
       ++ ci_name c ++ str " - " ++ ci_section c ++ str nl)
      ++ (ci_text c ++ str (nl ++ nl))
      ++ format_items label (S i) rest
  end.

Definition drug_header : pystr := str ("--- DRUG INFORMATION ---" ++ nl ++ nl).
Definition syndrome_header : pystr := str (nl ++ "--- SYNDROME INFORMATION ---" ++ nl ++ nl).

Definition knowledge_header : pystr := str ("=== RETRIEVED MEDICAL KNOWLEDGE ===" ++ nl ++ nl).

Definition format_context_for_llm (context : context_bundle) : pystr :=
  knowledge_header
  ++ drug_header
  ++ format_items (str "Drug") 1 (b_drug_context context)
  ++ syndrome_header
  ++ format_items (str "Syndrome") 1 (b_syndrome_context context).

(* ================================================================== *)
(** ** Spec-side definitions used to state claims *)

(** The boilerplate keywords the spec lists for the composed query. *)
Definition boilerplate_keywords : list pystr :=
  map str ["adverse effect"; "mechanism"; "toxicity"; "risk"; "pathophysiology";
           "clinical manifestation"; "syndrome"; "complication"; "serious"]%string.

(** The part of the query template after [drug_name] and [stop_reason]. *)
Definition tail_template (age_risk duration : pystr) : pystr :=
  str ("adverse effect mechanism toxicity " ++ nl ++ "        ")
  ++ age_risk ++ str " age risk " ++ duration
  ++ str (" duration pathophysiology " ++ nl
          ++ "        clinical manifestation syndrome complication serious").

(** The document filter of a search: [None] and [""] select every
    document, [Some t] the documents of type [t]. *)
Definition accepts (document_type : option pystr) (d : stored_doc) : bool :=
  match document_type with
  | Some ((_ :: _) as t) => pystr_eqb (sd_document_type d) t
  | _ => true
  end.

Definition section_recognized (content section : pystr) : bool :=
  match section_search section content with Some _ => true | None => false end.

(** Spec reading of "a leading [DRUG NAME:]/[SYNDROME:] header line": a
    line of the text that starts with one of the two labels. *)
Definition has_header_line (content : pystr) : bool :=
  existsb (fun line => is_prefix (str "DRUG NAME:") line || is_prefix (str "SYNDROME:") line)
          (py_split_char newline content).

(* ================================================================== *)
(** ** Prompt Builder: [ClinicalNarrativeGenerator.build_prompt]

    Python [str(int)] is the decimal numeral.  The template's non-ASCII
    characters (box drawing, bullets) are held as their UTF-8 bytes; the
    functions below only concatenate, so this does not change what they
    compute. *)

Definition dq : string := String (Ascii.ascii_of_nat 34) EmptyString.

Definition Z_to_pystr (z : Z) : pystr := str (NilEmpty.string_of_int (Z.to_int z)).

Definition build_prompt (patient_id : pystr) (age : Z) (gender drug_name : pystr) (days : Z)
    (stop_reason retrieved_context : pystr) : pystr :=
  str (String.concat nl
       ["You are a Senior Pharmacovigilance Physician AI with expertise in adverse drug reaction analysis.";
        "";
        "ROLE:";
        "You MUST analyze this adverse drug reaction case using ONLY the retrieved medical knowledge provided below.";
        "Generate a structured, evidence-based clinical safety narrative following ICH E2B pharmacovigilance standards.";
        "";
        "CASE DETAILS:";
        "━━━━━━━━━━━━━━━━━━━━━━━━━━━━━━━━━━━━━━━━━━━━━━━━━━━━━━";
        "Patient ID: "]%string)
  ++ patient_id
  ++ str (String.concat nl
       ["";
        "Age: "]%string)
  ++ Z_to_pystr age
  ++ str (String.concat nl
       [" years";
        "Gender: "]%string)
  ++ gender
  ++ str (String.concat nl
       ["";
        "Drug: "]%string)
  ++ drug_name
  ++ str (String.concat nl
       ["";
        "Treatment Duration: "]%string)
  ++ Z_to_pystr days
  ++ str (String.concat nl
       [" days";
        "Stop Reason: "]%string)
  ++ stop_reason
  ++ str (String.concat nl
       ["";
        "━━━━━━━━━━━━━━━━━━━━━━━━━━━━━━━━━━━━━━━━━━━━━━━━━━━━━━";
        "";
        "RETRIEVED MEDICAL KNOWLEDGE:";
        "━━━━━━━━━━━━━━━━━━━━━━━━━━━━━━━━━━━━━━━━━━━━━━━━━━━━━━";
        ""]%string)
  ++ retrieved_context
  ++ str (String.concat nl
       ["";
        "━━━━━━━━━━━━━━━━━━━━━━━━━━━━━━━━━━━━━━━━━━━━━━━━━━━━━━";
        "";
        "INSTRUCTIONS:";
        "Generate a comprehensive pharmacovigilance narrative with the following sections:";
        "";
        "1. CASE SUMMARY";
        "   - Describe the temporal association between drug exposure and symptom onset";
        "   - Include patient demographics and relevant risk factors";
        "   - State the clinical presentation clearly";
        "";
        "2. MECHANISTIC EXPLANATION";
        "   - Explain the pharmacological mechanism linking the drug to the adverse event";
        "   - Reference specific pathways (e.g., enzyme inhibition, receptor effects, metabolic pathways)";
        "   - Discuss dose-duration relationship if relevant";
        "";
        "3. SYNDROME CORRELATION";
        "   - Identify the most probable adverse drug reaction syndrome";
        "   - Explain why this syndrome best fits the clinical picture";
        "   - Reference diagnostic criteria or clinical markers from retrieved knowledge";
        "";
        "4. RISK STRATIFICATION";
        "   - Analyze age-related risk factors";
        "   - Discuss organ function implications (hepatic, renal, cardiac)";
        "   - Assess drug accumulation or interaction potential";
        "   - Identify patient-specific vulnerabilities";
        "";
        "5. SERIOUSNESS ASSESSMENT";
        "   - Classify severity: Mild / Moderate / Severe / Life-Threatening";
        "   - Assess hospitalization requirement likelihood";
        "   - Evaluate potential for permanent disability or mortality";
        "   - Justify your classification with medical reasoning";
        "";
        "6. REGULATORY CAUSALITY ASSESSMENT";
        "   - Apply WHO-UMC causality categories:";
        "     * Certain: Event follows plausible temporal sequence, cannot be explained by other factors";
        "     * Probable/Likely: Event follows reasonable temporal sequence, unlikely due to other factors";
        "     * Possible: Event follows reasonable temporal sequence, could be explained by other factors";
        "     * Unlikely: Temporal relationship makes causality improbable";
        "   - Provide justification for your category selection";
        "";
        "7. CLINICAL RECOMMENDATIONS";
        "   - Specify monitoring parameters and frequency";
        "   - Recommend drug discontinuation or dose adjustment";
        "   - Suggest alternative therapy options if appropriate";
        "   - Outline follow-up requirements";
        "";
        "CRITICAL REQUIREMENTS:";
        "• Use ONLY information from the retrieved medical knowledge above";
        "• NO hallucinations or unsupported claims";
        "• Use cautious, medically conservative language";
        ("• Phrase conclusions as " ++ dq ++ "probable" ++ dq ++ ", " ++ dq ++ "suggestive of" ++ dq ++ ", " ++ dq ++ "consistent with" ++ dq ++ "");
        "• Do NOT provide definitive diagnosis";
        "• Do NOT replace clinical judgment";
        "• Follow pharmacovigilance terminology";
        "• Be thorough but concise";
        "• Use medical terminology appropriately";
        "";
        "OUTPUT FORMAT:";
        "Generate the narrative as structured paragraphs under each section heading.";
        "Be specific, evidence-based, and clinically relevant.";
        "";
        "Begin your response now:"]%string).

(* ================================================================== *)
(** ** Narrative generation: [ClinicalNarrativeGenerator.generate_narrative] *)

Record ClinicalNarrative := mk_narrative {
  cn_patient_id : pystr;
  cn_drug_name : pystr;
  cn_duration_days : Z;
  cn_stop_reason : pystr;
  cn_narrative : pystr;
  cn_probable_syndrome : pystr;
  cn_mechanism : pystr;
  cn_seriousness_level : pystr;
  cn_causality_category : pystr;
  cn_clinical_advice : pystr;
  cn_generated_at : pystr
}.

Definition system_message : pystr :=
  str "You are a Senior Pharmacovigilance Physician AI specializing in adverse drug reaction analysis. You provide evidence-based, conservative clinical assessments following ICH E2B standards.".

(** [chat system user] is the text of the first choice the Groq chat
    completion returns for the two messages (temperature and token limit
    are settings of that call); [generated_at] is [datetime.now().isoformat()]. *)
Definition generate_narrative (chat : pystr -> pystr -> pystr) (generated_at : pystr)
    (patient_id : pystr) (age : Z) (gender drug_name : pystr) (days : Z)
    (stop_reason retrieved_context : pystr) : ClinicalNarrative :=
  let prompt := build_prompt patient_id age gender drug_name days stop_reason retrieved_context in
  let narrative_text := chat system_message prompt in
  let syndrome := extract_field narrative_text [str "SYNDROME CORRELATION"; str "Probable Syndrome"] in
  let mechanism := extract_field narrative_text [str "MECHANISTIC EXPLANATION"; str "Mechanism"] in
  let seriousness := extract_field narrative_text [str "SERIOUSNESS ASSESSMENT"; str "Severity"] in
  let causality := extract_field narrative_text [str "CAUSALITY ASSESSMENT"; str "Causality"] in
  let advice := extract_field narrative_text [str "CLINICAL RECOMMENDATIONS"; str "Recommendations"] in
  mk_narrative patient_id drug_name days stop_reason narrative_text
    syndrome mechanism seriousness causality advice generated_at.

(* ================================================================== *)
(** ** Reports: [format_report], [save_report] and the API's [download_report] *)

Definition format_report (narrative : ClinicalNarrative) : pystr :=
  str (String.concat nl
       ["";
        "╔════════════════════════════════════════════════════════════════════════════╗";
        "║                                                                            ║";
        "║          ADVERSE DRUG REACTION CLINICAL ASSESSMENT REPORT                  ║";
        "║                 AI-Generated Pharmacovigilance Narrative                   ║";
        "║                                                                            ║";
        "╚════════════════════════════════════════════════════════════════════════════╝";
        "";
        "REPORT METADATA";
        "━━━━━━━━━━━━━━━━━━━━━━━━━━━━━━━━━━━━━━━━━━━━━━━━━━━━━━━━━━━━━━━━━━━━━━━━━━━━";
        "Generated: "]%string)
  ++ cn_generated_at narrative
  ++ str (String.concat nl
       ["";
        "System: AI-Powered RAG Clinical Narrative Generator";
        "Model: Groq Llama3-70B with Medical Knowledge Retrieval";
        "";
        "";
        "CASE IDENTIFICATION";
        "━━━━━━━━━━━━━━━━━━━━━━━━━━━━━━━━━━━━━━━━━━━━━━━━━━━━━━━━━━━━━━━━━━━━━━━━━━━━";
        "Patient ID:        "]%string)
  ++ cn_patient_id narrative
  ++ str (String.concat nl
       ["";
        "Drug Implicated:   "]%string)
  ++ cn_drug_name narrative
  ++ str (String.concat nl
       ["";
        "Treatment Duration: "]%string)
  ++ Z_to_pystr (cn_duration_days narrative)
  ++ str (String.concat nl
       [" days";
        "Adverse Event:     "]%string)
  ++ cn_stop_reason narrative
  ++ str (String.concat nl
       ["";
        "";
        "";
        "CLINICAL NARRATIVE";
        "━━━━━━━━━━━━━━━━━━━━━━━━━━━━━━━━━━━━━━━━━━━━━━━━━━━━━━━━━━━━━━━━━━━━━━━━━━━━";
        "";
        ""]%string)
  ++ cn_narrative narrative
  ++ str (String.concat nl
       ["";
        "";
        "";
        "SUMMARY ASSESSMENT";
        "━━━━━━━━━━━━━━━━━━━━━━━━━━━━━━━━━━━━━━━━━━━━━━━━━━━━━━━━━━━━━━━━━━━━━━━━━━━━";
        "";
        "Probable Syndrome:";
        ""]%string)
  ++ cn_probable_syndrome narrative
  ++ str (String.concat nl
       ["";
        "";
        "Mechanistic Pathway:";
        ""]%string)
  ++ cn_mechanism narrative
  ++ str (String.concat nl
       ["";
        "";
        "Seriousness Level:";
        ""]%string)
  ++ cn_seriousness_level narrative
  ++ str (String.concat nl
       ["";
        "";
        "Causality Category (WHO-UMC):";
        ""]%string)
  ++ cn_causality_category narrative
  ++ str (String.concat nl
       ["";
        "";
        "Clinical Recommendations:";
        ""]%string)
  ++ cn_clinical_advice narrative
  ++ str (String.concat nl
       ["";
        "";
        "";
        "DISCLAIMER";
        "━━━━━━━━━━━━━━━━━━━━━━━━━━━━━━━━━━━━━━━━━━━━━━━━━━━━━━━━━━━━━━━━━━━━━━━━━━━━";
        "This AI-generated narrative is a clinical decision support tool and does NOT";
        "constitute medical diagnosis or treatment advice. All cases should be reviewed";
        "by qualified healthcare professionals. This system uses retrieval-augmented";
        "generation with evidence-based medical knowledge but cannot replace clinical";
        "judgment.";
        "";
        "Follow institutional protocols for adverse event reporting and patient management.";
        "━━━━━━━━━━━━━━━━━━━━━━━━━━━━━━━━━━━━━━━━━━━━━━━━━━━━━━━━━━━━━━━━━━━━━━━━━━━━";
        "";
        "";
        "End of Report";
        ""]%string).

(** The file system: the contents of each file path. *)
Definition filesystem := pystr -> option pystr.

(** [posixpath.join(a, b)] for two components. *)
Definition os_path_join (a b : pystr) : pystr :=
  match b with
  | "/"%char :: _ => b
  | _ => if pystr_eqb a [] then b
         else if pystr_eqb (last a " "%char :: []) (str "/") then a ++ b
         else a ++ str "/" ++ b
  end.

(** [open(filepath, 'w').write(report)]; [os.makedirs] creates
    directories, which this model of files leaves implicit. *)
Definition write_file (fs : filesystem) (path contents : pystr) : filesystem :=
  fun p => if pystr_eqb p path then Some contents else fs p.

Definition save_report (fs : filesystem) (narrative : ClinicalNarrative) (output_dir : pystr)
    : pystr * filesystem :=
  let filename := str "clinical_report_" ++ cn_patient_id narrative ++ str ".txt" in
  let filepath := os_path_join output_dir filename in
  let report := format_report narrative in
  (filepath, write_file fs filepath report).

(** [download_report] of [api_server.py]: [None] is the 404 answer
    "Report not found", [Some c] the served file contents. *)
Definition download_report (fs : filesystem) (patient_id : pystr) : option pystr :=
  let report_path := str "reports/clinical_report_" ++ patient_id ++ str ".txt" in
  fs report_path.

(* ================================================================== *)
(** ** Ingestion: [MedicalKnowledgeVectorizer.ingest_directory], [reset_collection],
       [get_stats] and the steps of [main] *)

Record metadata := mk_metadata {
  md_file_name : pystr;
  md_token_count : nat
}.

(** The vectorizer's collection keeps each document with its metadata. *)
Definition vcollection := list (stored_doc * metadata).

Section Ingestion.

(** The file system, the embedding model and [len(tokenizer.encode(.))]. *)
Variable read_file : pystr -> pystr.
Variable embed : pystr -> list Z.
Variable token_count : pystr -> nat.

Definition chunk_document (document_type md_file : pystr) (chunk : chunk_dict)
    : stored_doc * metadata :=
  (mk_stored_doc document_type (cd_name chunk) (cd_section chunk) (cd_text chunk)
                 (embed (cd_text chunk)),
   mk_metadata (path_name md_file) (token_count (cd_text chunk))).

(** [md_files] is the list [directory_path.glob("*.md")] yields, in its
    order; [collection.insert_many] appends. *)
Definition ingest_directory (md_files : list pystr) (document_type : pystr)
    (collection : vcollection) : nat * vcollection :=
  let all_documents :=
    flat_map (fun md_file => map (chunk_document document_type md_file)
                                 (chunk_markdown_file read_file md_file document_type))
             md_files in
  let collection' := match all_documents with
                     | [] => collection
                     | _ => collection ++ all_documents
                     end in
  (List.length all_documents, collection').

Definition reset_collection (collection : vcollection) : vcollection := [].

Definition count_documents_type (t : pystr) (collection : vcollection) : nat :=
  List.length (filter (fun p => pystr_eqb (sd_document_type (fst p)) t) collection).

(** The three counts [get_stats] prints: total, drug and syndrome chunks. *)
Definition get_stats (collection : vcollection) : nat * nat * nat :=
  (List.length collection, count_documents_type (str "drug") collection,
   count_documents_type (str "syndrome") collection).

(** [main] after the configuration check: optional reset (the answer
    ['y']), the drug and syndrome ingestions, then the statistics. *)
Definition ingestion_main (reset : bool) (drug_files syndrome_files : list pystr)
    (collection : vcollection) : nat * nat * (nat * nat * nat) * vcollection :=
  let c0 := if reset then reset_collection collection else collection in
  let (drug_count, c1) := ingest_directory drug_files (str "drug") c0 in
  let (syndrome_count, c2) := ingest_directory syndrome_files (str "syndrome") c1 in
  (drug_count, syndrome_count, get_stats c2, c2).

End Ingestion.

(** One item of [format_context_for_llm]. *)
Definition item_block (label : pystr) (i : nat) (c : context_item) : pystr :=
  str "[" ++ label ++ str " Knowledge " ++ nat_to_pystr i ++ str "] "
  ++ ci_name c ++ str " - " ++ ci_section c ++ str nl ++ ci_text c ++ str (nl ++ nl).

Definition score_desc (a b : RetrievedChunk) : Prop := (rc_score b <= rc_score a)%Z.

(* ================================================================== *)
(** ** Concrete inputs of the examples, counterexamples and witnesses *)

(** A word produced by [str.split()]: nonempty and free of whitespace. *)
Definition word_ok (w : pystr) : Prop := w <> [] /\ forallb is_space w = false /\ Forall (fun c => is_space c = false) w.

(** The store of the C1 failing input: five drug chunks whose unit
    embedding equals the query, one syndrome chunk orthogonal to it.  On
    unit vectors the cosine similarity is the dot product. *)
Fixpoint dot (a b : list Z) : Z :=
  match a, b with
  | x :: a', y :: b' => (x * y + dot a' b')%Z
  | _, _ => 0%Z
  end.

Definition drug_doc (sec : string) : stored_doc :=
  mk_stored_doc (str "drug") (str "atorvastatin") (str sec) (str sec) [1; 0]%Z.

Definition demo_collection : list stored_doc :=
  [drug_doc "FULL_DOCUMENT"; drug_doc "MECHANISM OF ACTION"; drug_doc "COMMON ADVERSE EFFECTS";
   drug_doc "RISK FACTORS"; drug_doc "MONITORING";
   mk_stored_doc (str "syndrome") (str "rhabdomyolysis") (str "FULL_DOCUMENT")
                 (str "rhabdomyolysis") [0; 1]%Z].

Definition reordered_drug_doc : pystr :=
  str ("DRUG NAME: Atorvastatin" ++ nl ++ "MONITORING:" ++ nl ++ "CK levels" ++ nl
       ++ "MECHANISM OF ACTION:" ++ nl ++ "HMG-CoA reductase inhibitor" ++ nl).

Definition header_free_doc : pystr :=
  str ("Statin profile" ++ nl ++ "Related SYNDROME: Myopathy" ++ nl).

Definition not_period (c : ascii) : bool := negb (Ascii.eqb c ".").

Definition narrative_demo : pystr :=
  str "Probable Syndrome. Rhabdomyolysis. SYNDROME CORRELATION".

Definition syndrome_keywords : list pystr :=
  [str "SYNDROME CORRELATION"; str "Probable Syndrome"].

Definition drug_only_collection : list stored_doc := firstn 5 demo_collection.

Definition empty_bundle : context_bundle :=
  mk_bundle (str "PT-2024-001") (str "atorvastatin") (str "muscle pain") 68 45 (str "Male")
            [] [] [].

Definition label_free_doc : pystr :=
  str ("DRUG NAME: Atorvastatin" ++ nl ++ "Lowers cholesterol." ++ nl).

Definition leading_line_doc : pystr :=
  str ("DRUG NAME: Atorvastatin" ++ nl ++ "MONITORING:" ++ nl ++ "CK levels").

Definition correlation_text : pystr :=
  str "SYNDROME CORRELATION: statin exposure. Rhabdomyolysis is likely. More text.".

Definition demo_drug_item : context_item :=
  mk_item (str "atorvastatin") (str "MONITORING") (str "Check CK levels.") 9.

Definition demo_syndrome_item : context_item :=
  mk_item (str "rhabdomyolysis") (str "KEY SYMPTOMS") (str "Muscle pain, dark urine.") 8.

Definition demo_bundle : context_bundle :=
  mk_bundle (str "PT-2024-001") (str "atorvastatin") (str "muscle pain") 68 45 (str "Male")
            [] [demo_drug_item] [demo_syndrome_item].



(* ================================================================== *)
(** ** Lemmas on the string primitives *)

Lemma is_prefix_spec : forall x s, is_prefix x s = true <-> exists post, s = x ++ post.
Proof.
  induction x as [|a x IH]; intros s; simpl.
  - split; [intros _; exists s; reflexivity | reflexivity].
  - destruct s as [|b s].
    + split; [discriminate | intros [post H]; discriminate].
    + rewrite andb_true_iff, IH. split.
      * intros [Hab [post ->]]. apply Ascii.eqb_eq in Hab. subst. exists post. reflexivity.
      * intros [post H]. injection H as -> ->. split; [apply Ascii.eqb_refl | eauto].
Qed.

Lemma py_find_from_some : forall x s i,
  (exists j, py_find_from x s i = Some j) <-> occurs_in x s.
Proof.
  intros x s. induction s as [|c s IH]; intros i; simpl.
  - destruct (is_prefix x []) eqn:E.
    + split; [intros _ | eauto].
      apply is_prefix_spec in E as [post E]. exists [], post. simpl. congruence.
    + split; [intros [j H]; discriminate |].
      intros [pre [post H]]. destruct pre; [|discriminate].
      destruct x; [discriminate | discriminate].
  - destruct (is_prefix x (c :: s)) eqn:E.
    + split; [intros _ | eauto].
      apply is_prefix_spec in E as [post E]. exists [], post. exact E.
    + rewrite IH. split.
      * intros [pre [post H]]. exists (c :: pre), post. simpl. congruence.
      * intros [pre [post H]]. destruct pre as [|d pre].
        -- exfalso. assert (is_prefix x (c :: s) = true) by (apply is_prefix_spec; eauto).
           congruence.
        -- injection H as -> H. exists pre, post. exact H.
Qed.

Lemma py_in_spec : forall x s, py_in x s = true <-> occurs_in x s.
Proof.
  intros x s. unfold py_in, py_find. rewrite <- (py_find_from_some x s 0).
  destruct (py_find_from x s 0) as [j|]; split.
  - eauto.
  - reflexivity.
  - discriminate.
  - intros [j H]; discriminate.
Qed.

Lemma occurs_in_trans : forall a b c, occurs_in a b -> occurs_in b c -> occurs_in a c.
Proof.
  intros a b c [p1 [q1 ->]] [p2 [q2 ->]].
  exists (p2 ++ p1), (q1 ++ q2). repeat rewrite <- app_assoc. reflexivity.
Qed.

Lemma occurs_in_nil : forall s, occurs_in [] s.
Proof. intros s. exists [], s. reflexivity. Qed.

Lemma occurs_in_refl : forall s, occurs_in s s.
Proof. intros s. exists [], []. rewrite app_nil_r. reflexivity. Qed.

Lemma py_join_app : forall sep l1 l2, l1 <> [] -> l2 <> [] ->
  py_join sep (l1 ++ l2) = py_join sep l1 ++ sep ++ py_join sep l2.
Proof.
  intros sep l1 l2 H1 H2. induction l1 as [|x l1 IH]; [congruence|].
  destruct l1 as [|y l1].
  - simpl. destruct l2; [congruence | reflexivity].
  - change ((x :: y :: l1) ++ l2) with (x :: ((y :: l1) ++ l2)).
    change (py_join sep (x :: ((y :: l1) ++ l2)))
      with (x ++ sep ++ py_join sep ((y :: l1) ++ l2)).
    rewrite IH by discriminate. simpl. repeat rewrite <- app_assoc. reflexivity.
Qed.

Lemma py_join_app_l : forall sep l1 l2, occurs_in (py_join sep l1) (py_join sep (l1 ++ l2)).
Proof.
  intros sep l1 l2. destruct l1 as [|x l1]; [apply occurs_in_nil|].
  destruct l2 as [|y l2]; [rewrite app_nil_r; apply occurs_in_refl|].
  rewrite py_join_app by discriminate. exists [], (sep ++ py_join sep (y :: l2)). reflexivity.
Qed.

Lemma py_join_app_r : forall sep l1 l2, occurs_in (py_join sep l2) (py_join sep (l1 ++ l2)).
Proof.
  intros sep l1 l2. destruct l2 as [|y l2]; [apply occurs_in_nil|].
  destruct l1 as [|x l1]; [apply occurs_in_refl|].
  rewrite py_join_app by discriminate. exists (py_join sep (x :: l1) ++ sep), [].
  rewrite app_nil_r, <- app_assoc. reflexivity.
Qed.

Lemma cons_word_app : forall w ws l, cons_word w (ws ++ l) = cons_word w ws ++ l.
Proof. intros [|c w] ws l; reflexivity. Qed.

Lemma split_ws_aux_sep : forall a c b, is_space c = true ->
  split_ws_aux (a ++ c :: b)
  = (fst (split_ws_aux a), snd (split_ws_aux a) ++ py_split_ws b).
Proof.
  induction a as [|d a IH]; intros c b Hc; simpl.
  - unfold py_split_ws. destruct (split_ws_aux b). rewrite Hc. reflexivity.
  - rewrite (IH c b Hc). destruct (split_ws_aux a) as [w ws]. simpl.
    destruct (is_space d); simpl; [rewrite cons_word_app|]; reflexivity.
Qed.

Lemma py_split_ws_sep : forall a c b, is_space c = true ->
  py_split_ws (a ++ c :: b) = py_split_ws a ++ py_split_ws b.
Proof.
  intros a c b Hc. unfold py_split_ws at 1. rewrite split_ws_aux_sep by exact Hc.
  unfold py_split_ws. destruct (split_ws_aux a) as [w ws]. simpl. apply cons_word_app.
Qed.

Lemma split_ws_aux_words : forall s,
  Forall (fun c => is_space c = false) (fst (split_ws_aux s))
  /\ Forall word_ok (snd (split_ws_aux s)).
Proof.
  induction s as [|c s [IH1 IH2]]; simpl; [auto|].
  destruct (split_ws_aux s) as [w ws]. simpl in *.
  destruct (is_space c) eqn:E; simpl.
  - split; [constructor|]. destruct w as [|d w]; simpl; [exact IH2|].
    constructor; [|exact IH2]. inversion IH1; subst.
    split; [discriminate|]. split; [simpl; rewrite H1; reflexivity | exact IH1].
  - split; [constructor; assumption | exact IH2].
Qed.

Lemma py_split_ws_words : forall s, Forall word_ok (py_split_ws s).
Proof.
  intros s. unfold py_split_ws. pose proof (split_ws_aux_words s) as [H1 H2].
  destruct (split_ws_aux s) as [w ws]. simpl in *.
  destruct w as [|c w]; [exact H2|]. constructor; [|exact H2].
  inversion H1; subst. split; [discriminate|]. split; [simpl; rewrite H3; reflexivity | exact H1].
Qed.

Lemma split_ws_aux_word : forall w, Forall (fun c => is_space c = false) w ->
  split_ws_aux w = (w, []).
Proof.
  induction w as [|c w IH]; intros H; simpl; [reflexivity|].
  inversion H; subst. rewrite IH by assumption. rewrite H2. reflexivity.
Qed.

Lemma py_split_ws_join : forall ws, Forall word_ok ws -> py_split_ws (py_join (str " ") ws) = ws.
Proof.
  induction ws as [|x ws IH]; intros H; [reflexivity|].
  inversion H as [|? ? [Hne [_ Hx]] Hws]; subst.
  destruct ws as [|y ws].
  - simpl. unfold py_split_ws. rewrite split_ws_aux_word by exact Hx.
    destruct x; [congruence | reflexivity].
  - change (py_join (str " ") (x :: y :: ws)) with (x ++ " "%char :: py_join (str " ") (y :: ws)).
    rewrite py_split_ws_sep by reflexivity. rewrite IH by exact Hws.
    unfold py_split_ws. rewrite split_ws_aux_word by exact Hx.
    destruct x; [congruence | reflexivity].
Qed.

Lemma query_template_split : forall d s ar du,
  py_split_ws (query_template d s ar du)
  = py_split_ws d ++ py_split_ws s ++ py_split_ws (tail_template ar du).
Proof.
  intros d s ar du.
  change (query_template d s ar du) with (d ++ " "%char :: (s ++ " "%char :: tail_template ar du)).
  rewrite py_split_ws_sep by reflexivity. rewrite py_split_ws_sep by reflexivity.
  reflexivity.
Qed.

Lemma normalize_ws_idem : forall s, normalize_ws (normalize_ws s) = normalize_ws s.
Proof.
  intros s. unfold normalize_ws. rewrite py_split_ws_join by apply py_split_ws_words.
  reflexivity.
Qed.

Lemma tail_template_keywords : forall age days,
  Forall (fun kw => occurs_in kw (normalize_ws (tail_template (age_risk_of age) (duration_of days))))
         (boilerplate_keywords ++ [age_risk_of age; duration_of days]).
Proof.
  intros age days. apply Forall_forall. intros kw Hkw. apply py_in_spec. revert kw Hkw.
  apply forallb_forall.
  unfold age_risk_of, duration_of.
  destruct (65 <=? age)%Z, (days <=? 7)%Z, (days <=? 30)%Z; vm_compute; reflexivity.
Qed.

(* ================================================================== *)
(** ** Query Composer *)

(** C3: the age tag is ["elderly"] exactly when [age >= 65] and ["adult"]
    otherwise; the duration tag is ["short-term"] exactly when
    [duration_days <= 7], ["acute"] exactly when [8 <= duration_days <= 30],
    and ["chronic prolonged"] exactly when [duration_days >= 31]. *)
Theorem query_tags_bands : forall age days : Z,
  (age_risk_of age = str "elderly" <-> (65 <= age)%Z)
  /\ (age_risk_of age = str "adult" <-> (age < 65)%Z)
  /\ (duration_of days = str "short-term" <-> (days <= 7)%Z)
  /\ (duration_of days = str "acute" <-> (8 <= days <= 30)%Z)
  /\ (duration_of days = str "chronic prolonged" <-> (31 <= days)%Z).
Proof.
  intros age days. unfold age_risk_of, duration_of.
  destruct (Z.leb_spec 65 age), (Z.leb_spec days 7), (Z.leb_spec days 30);
    repeat split; intros; try discriminate; try reflexivity; lia.
Qed.

Example query_tags_boundaries :
  age_risk_of 64 = str "adult" /\ age_risk_of 65 = str "elderly"
  /\ duration_of 7 = str "short-term" /\ duration_of 8 = str "acute"
  /\ duration_of 30 = str "acute" /\ duration_of 31 = str "chronic prolonged".
Proof. repeat split. Qed.

(** C7 (as amended): the composed query is the words of [drug_name], then
    those of [stop_reason], then the fixed words with the age and duration
    tags, joined by single spaces.  It contains the whitespace-normalised
    drug name and stop reason, every boilerplate keyword and both tags, and
    a further whitespace normalisation leaves it unchanged.  For
    atorvastatin / muscle pain / 68 / 45 it contains "elderly",
    "chronic prolonged", "atorvastatin" and "muscle pain". *)
Theorem query_contents_normalized : forall drug_name stop_reason age days gender,
  let q := build_semantic_query drug_name stop_reason age days gender in
  q = py_join (str " ") (py_split_ws drug_name ++ py_split_ws stop_reason
                         ++ py_split_ws (tail_template (age_risk_of age) (duration_of days)))
  /\ occurs_in (normalize_ws drug_name) q
  /\ occurs_in (normalize_ws stop_reason) q
  /\ Forall (fun kw => occurs_in kw q) (boilerplate_keywords ++ [age_risk_of age; duration_of days])
  /\ normalize_ws q = q
  /\ Forall (fun x => occurs_in x (build_semantic_query (str "atorvastatin") (str "muscle pain") 68 45 gender))
            [str "elderly"; str "chronic prolonged"; str "atorvastatin"; str "muscle pain"].
Proof.
  intros drug_name stop_reason age days gender q.
  assert (Hq : q = py_join (str " ") (py_split_ws drug_name ++ py_split_ws stop_reason
                         ++ py_split_ws (tail_template (age_risk_of age) (duration_of days)))).
  { unfold q, build_semantic_query. rewrite query_template_split. reflexivity. }
  split; [exact Hq|]. split; [|split; [|split; [|split]]].
  - rewrite Hq. apply py_join_app_l.
  - rewrite Hq. eapply occurs_in_trans; [apply py_join_app_l | apply py_join_app_r].
  - eapply Forall_impl; [|apply tail_template_keywords].
    intros kw Hkw. eapply occurs_in_trans; [exact Hkw|]. rewrite Hq.
    rewrite app_assoc. apply py_join_app_r.
  - unfold q, build_semantic_query. apply normalize_ws_idem.
  - repeat constructor; apply py_in_spec; vm_compute; reflexivity.
Qed.

(** C7 as stated fails: a stop reason with a doubled space does not
    occur verbatim in the composed query. *)
Lemma query_not_verbatim :
  ~ (forall drug_name stop_reason age days gender,
       occurs_in stop_reason (build_semantic_query drug_name stop_reason age days gender)).
Proof.
  intros H. specialize (H (str "atorvastatin") (str "muscle  pain") 68%Z 45%Z []).
  apply py_in_spec in H. vm_compute in H. discriminate.
Qed.

(** C9: two calls that differ only in [gender] compose the same query,
    embed the same text, run the same searches on the same world and
    return bundles with the same query and result lists. *)
Theorem query_gender_independent : forall embed sim patient_id drug_name stop_reason age days
    gender1 gender2 drug_chunks syndrome_chunks w,
  build_semantic_query drug_name stop_reason age days gender1
  = build_semantic_query drug_name stop_reason age days gender2
  /\ (let (b1, w1) := retrieve_for_case embed sim patient_id drug_name stop_reason age days
                        gender1 drug_chunks syndrome_chunks w in
      let (b2, w2) := retrieve_for_case embed sim patient_id drug_name stop_reason age days
                        gender2 drug_chunks syndrome_chunks w in
      w1 = w2 /\ b_query b1 = b_query b2
      /\ b_drug_context b1 = b_drug_context b2
      /\ b_syndrome_context b1 = b_syndrome_context b2).
Proof.
  intros. split; [reflexivity|]. cbn. repeat split.
Qed.

(* ================================================================== *)
(** ** Knowledge Store and Retriever *)

Lemma in_insert_desc : forall x y l, In y (insert_desc x l) <-> x = y \/ In y l.
Proof.
  intros x y l. induction l as [|z l IH]; simpl.
  - tauto.
  - destruct (snd z <=? snd x)%Z; simpl; [tauto|]. rewrite IH. tauto.
Qed.

Lemma in_sort_desc : forall y l, In y (sort_desc l) <-> In y l.
Proof.
  intros y l. induction l as [|x l IH]; simpl; [tauto|].
  rewrite in_insert_desc, IH. intuition.
Qed.

Lemma filter_true : forall {A} (l : list A), filter (fun _ => true) l = l.
Proof. intros A l. induction l as [|x l IH]; simpl; congruence. Qed.

Lemma match_stage_filter : forall f l,
  match_stage f l = filter (fun p => accepts f (fst p)) l.
Proof.
  intros [[|c t]|] l; simpl; try (symmetry; apply filter_true). reflexivity.
Qed.

Lemma in_firstn_in : forall {A} n (l : list A) x, In x (firstn n l) -> In x l.
Proof.
  intros A n. induction n as [|n IH]; intros [|y l] x H; simpl in *; try contradiction.
  destruct H; [left; assumption | right; eapply IH; eassumption].
Qed.

Lemma vector_search_stage_in : forall sim coll v k p,
  In p (vector_search_stage sim coll v k) -> In (fst p) coll.
Proof.
  intros sim coll v k p H. unfold vector_search_stage in H.
  apply in_firstn_in, in_sort_desc, in_map_iff in H as [d [<- Hd]]. exact Hd.
Qed.

(** C5: one call composes the query with the Query Composer, embeds it
    exactly once, runs exactly two searches with that one embedding (type
    ["drug"] with [drug_chunks] results, then type ["syndrome"] with
    [syndrome_chunks] results, both 5 by default), leaves the collection
    unchanged and returns the case fields, the query and both result lists
    in search order. *)
Theorem retrieve_for_case_spec : forall embed sim patient_id drug_name stop_reason age days
    gender drug_chunks syndrome_chunks w,
  let query := build_semantic_query drug_name stop_reason age days gender in
  let v := embed query in
  let drug_results := vector_search sim (w_collection w) v (Some (str "drug")) drug_chunks in
  let syndrome_results :=
    vector_search sim (w_collection w) v (Some (str "syndrome")) syndrome_chunks in
  retrieve_for_case embed sim patient_id drug_name stop_reason age days gender
    drug_chunks syndrome_chunks w
  = (mk_bundle patient_id drug_name stop_reason age days gender query
       (map to_item drug_results) (map to_item syndrome_results),
     mk_world (w_collection w)
       (w_log w ++ [EvEmbed query; EvSearch v (Some (str "drug")) drug_chunks;
                    EvSearch v (Some (str "syndrome")) syndrome_chunks]))
  /\ retrieve_for_case_defaults embed sim patient_id drug_name stop_reason age days w
     = retrieve_for_case embed sim patient_id drug_name stop_reason age days [] 5 5 w.
Proof.
  intros. split; [|reflexivity].
  unfold retrieve_for_case, bind, ret, create_query_embedding, vector_search_op, log_event.
  simpl. repeat rewrite <- app_assoc. reflexivity.
Qed.

(** C6: a search on a collection with no document the filter selects
    returns the empty list, and the formatted context always holds the
    drug and syndrome headers; an empty drug list leaves the drug header
    directly followed by the syndrome header, and an empty syndrome list
    leaves the syndrome header at the end. *)
Theorem empty_results_both_divisions : forall sim coll v document_type top_k context,
  (forall d, In d coll -> accepts document_type d = false) ->
  vector_search sim coll v document_type top_k = []
  /\ occurs_in drug_header (format_context_for_llm context)
  /\ occurs_in syndrome_header (format_context_for_llm context)
  /\ (b_drug_context context = [] ->
      occurs_in (drug_header ++ syndrome_header) (format_context_for_llm context))
  /\ (b_syndrome_context context = [] ->
      exists pre, format_context_for_llm context = pre ++ syndrome_header).
Proof.
  intros sim coll v document_type top_k context Hnone. split; [|split; [|split; [|split]]].
  - unfold vector_search. rewrite match_stage_filter.
    destruct (filter _ _) as [|p l] eqn:E; [reflexivity|].
    exfalso. assert (Hp : In p (p :: l)) by (left; reflexivity). rewrite <- E in Hp.
    apply filter_In in Hp as [Hp Ha]. apply vector_search_stage_in in Hp.
    rewrite (Hnone _ Hp) in Ha. discriminate.
  - unfold format_context_for_llm.
    exists knowledge_header, (format_items (str "Drug") 1 (b_drug_context context)
      ++ syndrome_header ++ format_items (str "Syndrome") 1 (b_syndrome_context context)).
    reflexivity.
  - unfold format_context_for_llm.
    exists (knowledge_header ++ drug_header ++ format_items (str "Drug") 1 (b_drug_context context)),
      (format_items (str "Syndrome") 1 (b_syndrome_context context)).
    repeat rewrite <- app_assoc. reflexivity.
  - intros H. unfold format_context_for_llm. rewrite H.
    exists knowledge_header, (format_items (str "Syndrome") 1 (b_syndrome_context context)).
    repeat rewrite <- app_assoc. reflexivity.
  - intros H. unfold format_context_for_llm. rewrite H.
    exists (knowledge_header ++ drug_header ++ format_items (str "Drug") 1 (b_drug_context context)).
    change (format_items (str "Syndrome") 1 []) with (@nil ascii). rewrite app_nil_r.
    repeat rewrite <- app_assoc. reflexivity.
Qed.

(** C1 failing input: the collection holds one syndrome chunk (fewer than
    five), yet the syndrome search with [top_k = 5] returns no chunk,
    because the [$match] stage filters the five nearest chunks of the whole
    collection. *)
Theorem vector_search_post_filter :
  List.length (filter (accepts (Some (str "syndrome"))) demo_collection) = 1
  /\ vector_search dot demo_collection [1; 0]%Z (Some (str "syndrome")) 5 = [].
Proof. split; vm_compute; reflexivity. Qed.

(* ================================================================== *)
(** ** Chunker *)

Lemma search_from_some : forall {A} (f : pystr -> option A) s a,
  search_from f s = Some a -> exists pre suf, s = pre ++ suf /\ f suf = Some a.
Proof.
  intros A f s a. induction s as [|c s IH]; simpl; intros H.
  - destruct (f []) eqn:E; [|discriminate]. injection H as ->. exists [], []. auto.
  - destruct (f (c :: s)) eqn:E.
    + injection H as ->. exists [], (c :: s). auto.
    + destruct (IH H) as [pre [suf [-> Hf]]]. exists (c :: pre), suf. auto.
Qed.

Lemma section_search_occurs : forall section content g,
  section_search section content = Some g -> occurs_in section content.
Proof.
  intros section content g H. apply search_from_some in H as [pre [suf [-> Hm]]].
  unfold section_match_at in Hm. destruct (is_prefix (section ++ str ":") suf) eqn:E;
    [|discriminate].
  apply is_prefix_spec in E as [post ->]. exists pre, (str ":" ++ post).
  rewrite <- app_assoc. reflexivity.
Qed.

Lemma section_chunks_sections : forall doc_name content sections,
  map cd_section (section_chunks doc_name content sections)
  = filter (section_recognized content) sections.
Proof.
  intros doc_name content sections. induction sections as [|sec rest IH]; [reflexivity|].
  simpl. unfold section_recognized at 1.
  destruct (section_search sec content); simpl; congruence.
Qed.

Lemma section_chunks_names : forall doc_name content sections,
  Forall (fun c => cd_name c = doc_name) (section_chunks doc_name content sections).
Proof.
  intros doc_name content sections. induction sections as [|sec rest IH]; simpl; [constructor|].
  destruct (section_search sec content); [constructor; [reflexivity|]|]; exact IH.
Qed.

Lemma sections_not_full : forall document_type,
  Forall (fun s => pystr_eqb s (str "FULL_DOCUMENT") = false) (sections_for document_type).
Proof.
  intros t. unfold sections_for, drug_sections, syndrome_sections.
  destruct (pystr_eqb t (str "drug")); simpl map;
    repeat (apply Forall_cons; [vm_compute; reflexivity|]); apply Forall_nil.
Qed.

Lemma filter_full_section_chunks : forall doc_name content sections,
  Forall (fun s => pystr_eqb s (str "FULL_DOCUMENT") = false) sections ->
  filter (fun c => pystr_eqb (cd_section c) (str "FULL_DOCUMENT"))
         (section_chunks doc_name content sections) = [].
Proof.
  intros doc_name content sections H. induction H as [|sec rest Hsec _ IH]; [reflexivity|].
  cbn [section_chunks]. destruct (section_search sec content);
    cbn [filter cd_section]; [rewrite Hsec|]; exact IH.
Qed.

(** C2: chunking emits exactly one [FULL_DOCUMENT] chunk, whose text is
    ["Document: " + name + "\n\n" + content]; the number of chunks is one
    more than the number of recognized section labels of the type; and a
    text in which no label of the type occurs yields exactly one chunk. *)
Theorem chunk_count : forall read_file file_path document_type,
  let content := read_file file_path in
  let doc_name := doc_name_of file_path content in
  let chunks := chunk_markdown_file read_file file_path document_type in
  filter (fun c => pystr_eqb (cd_section c) (str "FULL_DOCUMENT")) chunks
  = [mk_chunk_dict (str "FULL_DOCUMENT")
       (str "Document: " ++ doc_name ++ str (nl ++ nl) ++ content) doc_name]
  /\ List.length chunks
     = S (List.length (filter (section_recognized content) (sections_for document_type)))
  /\ ((forall section, In section (sections_for document_type) -> ~ occurs_in section content) ->
      List.length chunks = 1).
Proof.
  intros read_file file_path document_type content doc_name chunks.
  assert (Hlen : List.length chunks
     = S (List.length (filter (section_recognized content) (sections_for document_type)))).
  { unfold chunks, chunk_markdown_file. cbn [List.length]. f_equal.
    rewrite <- (section_chunks_sections doc_name content), length_map. reflexivity. }
  split; [|split; [exact Hlen|]].
  - unfold chunks, chunk_markdown_file. cbn [filter cd_section].
    rewrite filter_full_section_chunks by apply sections_not_full. reflexivity.
  - intros Hnone. rewrite Hlen. f_equal.
    destruct (filter (section_recognized content) (sections_for document_type)) as [|s l] eqn:E;
      [reflexivity|].
    exfalso. assert (Hs : In s (s :: l)) by (left; reflexivity). rewrite <- E in Hs.
    apply filter_In in Hs as [Hin Hrec]. apply (Hnone s Hin).
    unfold section_recognized in Hrec. destruct (section_search s content) eqn:Es; [|discriminate].
    eapply section_search_occurs; exact Es.
Qed.

(** C10: the first chunk is the [FULL_DOCUMENT] chunk and the other chunks
    carry the recognized sections in the order of the type's section list. *)
Theorem chunk_order : forall read_file file_path document_type,
  let content := read_file file_path in
  let doc_name := doc_name_of file_path content in
  exists rest,
    chunk_markdown_file read_file file_path document_type
    = mk_chunk_dict (str "FULL_DOCUMENT")
        (str "Document: " ++ doc_name ++ str (nl ++ nl) ++ content) doc_name :: rest
    /\ map cd_section rest = filter (section_recognized content) (sections_for document_type).
Proof.
  intros read_file file_path document_type content doc_name.
  eexists. split; [reflexivity|]. apply section_chunks_sections.
Qed.

Example chunk_order_example :
  map cd_section (chunk_markdown_file (fun _ => reordered_drug_doc) (str "atorvastatin.md") (str "drug"))
  = [str "FULL_DOCUMENT"; str "MECHANISM OF ACTION"; str "MONITORING"].
Proof. vm_compute. reflexivity. Qed.

Lemma name_search_occurs : forall content g,
  name_search content = Some g ->
  occurs_in (str "DRUG NAME:") content \/ occurs_in (str "SYNDROME:") content.
Proof.
  intros content g H. apply search_from_some in H as [pre [suf [-> Hm]]].
  unfold name_match_at in Hm.
  destruct (is_prefix (str "DRUG NAME:") suf) eqn:E1.
  - left. apply is_prefix_spec in E1 as [post ->]. exists pre, post. reflexivity.
  - destruct (is_prefix (str "SYNDROME:") suf) eqn:E2; [|discriminate].
    right. apply is_prefix_spec in E2 as [post ->]. exists pre, post. reflexivity.
Qed.

Lemma take_while_app_stop : forall p a c b,
  Forall (fun x => p x = true) a -> p c = false -> take_while p (a ++ c :: b) = a.
Proof.
  intros p a c b Ha Hc. induction Ha as [|x a Hx _ IH]; simpl; [rewrite Hc; reflexivity|].
  rewrite Hx, IH. reflexivity.
Qed.

Lemma search_from_hit : forall {A} (f : pystr -> option A) s a,
  f s = Some a -> search_from f s = Some a.
Proof. intros A f [|c s] a H; simpl; rewrite H; reflexivity. Qed.

Lemma skipn_length_app : forall {A} (a b : list A), skipn (List.length a) (a ++ b) = b.
Proof. intros A a b. induction a as [|x a IH]; simpl; auto. Qed.

(** A text that starts with [DRUG NAME:], optional whitespace, then a name
    that starts with a non-space character and runs to the end of the line,
    is named by that name, stripped. *)
Lemma doc_name_leading_drug_line : forall file_path ws c name rest,
  Forall (fun x => is_space x = true) ws -> is_space c = false ->
  Forall (fun x => not_newline x = true) (c :: name) ->
  doc_name_of file_path (str "DRUG NAME:" ++ ws ++ c :: name ++ newline :: rest)
  = py_strip (c :: name).
Proof.
  intros file_path ws c name rest Hws Hc Hname.
  assert (Hm : name_match_at (str "DRUG NAME:" ++ ws ++ c :: name ++ newline :: rest)
                = Some (c :: name)).
  { unfold name_match_at. rewrite (proj2 (is_prefix_spec _ _)) by eauto.
    cbn [skipn str list_ascii_of_string app].
    unfold ws_then_dotplus.
    rewrite (take_while_app_stop is_space ws c) by assumption.
    inversion Hname as [|? ? Hcn Hn]; subst.
    destruct (List.length ws) eqn:El; cbn [try_desc];
      rewrite <- El, skipn_length_app; unfold dotplus_at; rewrite Hcn;
      change (c :: name ++ newline :: rest) with ((c :: name) ++ newline :: rest);
      rewrite (take_while_app_stop not_newline (c :: name) newline rest Hname) by reflexivity;
      reflexivity. }
  unfold doc_name_of, name_search. rewrite (search_from_hit _ _ _ Hm). reflexivity.
Qed.

(** C8 (as amended): every chunk carries the name [doc_name_of]: the
    stripped group of the first match, anywhere in the text, of
    [(DRUG NAME|SYNDROME):\s*(.+)]; the filename stem is used only when
    there is no match, in particular when neither label occurs in the text;
    a text starting with a [DRUG NAME:] line is named by the rest of that
    line, stripped. *)
Theorem chunk_names : forall read_file file_path document_type,
  let content := read_file file_path in
  Forall (fun c => cd_name c = doc_name_of file_path content)
         (chunk_markdown_file read_file file_path document_type)
  /\ (forall g, name_search content = Some g -> doc_name_of file_path content = py_strip g)
  /\ (name_search content = None -> doc_name_of file_path content = path_stem file_path)
  /\ (~ occurs_in (str "DRUG NAME:") content -> ~ occurs_in (str "SYNDROME:") content ->
      doc_name_of file_path content = path_stem file_path)
  /\ (forall ws c name rest,
        Forall (fun x => is_space x = true) ws -> is_space c = false ->
        Forall (fun x => not_newline x = true) (c :: name) ->
        content = str "DRUG NAME:" ++ ws ++ c :: name ++ newline :: rest ->
        doc_name_of file_path content = py_strip (c :: name)).
Proof.
  intros read_file file_path document_type content.
  split; [|split; [|split; [|split]]].
  - unfold chunk_markdown_file. constructor; [reflexivity|]. apply section_chunks_names.
  - intros g Hg. unfold doc_name_of. rewrite Hg. reflexivity.
  - intros Hn. unfold doc_name_of. rewrite Hn. reflexivity.
  - intros H1 H2. unfold doc_name_of. destruct (name_search content) eqn:E; [|reflexivity].
    exfalso. apply name_search_occurs in E as [E|E]; auto.
  - intros ws c name rest Hws Hc Hname ->. apply doc_name_leading_drug_line; assumption.
Qed.

(** C8 as stated fails: a drug text with no line starting with
    [DRUG NAME:] or [SYNDROME:] is not named by the filename stem
    ["atorvastatin"] but by the text after a [SYNDROME:] in mid-line. *)
Lemma chunk_name_midline_label :
  has_header_line header_free_doc = false
  /\ path_stem (str "kb/drugs/atorvastatin.md") = str "atorvastatin"
  /\ map cd_name (chunk_markdown_file (fun _ => header_free_doc)
                    (str "kb/drugs/atorvastatin.md") (str "drug"))
     = [str "Myopathy"].
Proof. vm_compute. repeat split. Qed.

(* ================================================================== *)
(** ** Narrative Post-Processor *)

Lemma py_split_char_no_sep : forall w, ~ In "."%char w -> py_split_char "." w = [w].
Proof.
  induction w as [|c w IH]; intros H; [reflexivity|]. simpl.
  destruct (Ascii.eqb c ".") eqn:E.
  - exfalso. apply H. left. apply Ascii.eqb_eq. exact E.
  - rewrite IH by (intros Hin; apply H; right; exact Hin). reflexivity.
Qed.

Lemma py_split_char_head : forall b, exists ws, py_split_char "." b = take_while not_period b :: ws.
Proof.
  induction b as [|c b [ws IH]]; [eexists; reflexivity|]. simpl. unfold not_period at 1.
  destruct (Ascii.eqb c ".") eqn:E; simpl.
  - eexists. reflexivity.
  - rewrite IH. eexists. reflexivity.
Qed.

Lemma py_split_char_first_sep : forall a b, ~ In "."%char a ->
  exists ws, py_split_char "." (a ++ "."%char :: b) = a :: take_while not_period b :: ws.
Proof.
  induction a as [|c a IH]; intros b H; simpl.
  - destruct (py_split_char_head b) as [ws Hws]. rewrite Hws. eexists. reflexivity.
  - destruct (Ascii.eqb c ".") eqn:E.
    + exfalso. apply H. left. apply Ascii.eqb_eq. exact E.
    + destruct (IH b) as [ws Hws]; [intros Hin; apply H; right; exact Hin|].
      rewrite Hws. eexists. reflexivity.
Qed.

Lemma extract_field_cons : forall text keyword rest,
  extract_field text (keyword :: rest)
  = match py_find keyword text with
    | Some start =>
        let sentences := py_split_char "." (py_slice text start (start + 500)) in
        if 1 <? List.length sentences
        then firstn 200 (py_strip (nth 1 sentences []))
        else extract_field text rest
    | None => extract_field text rest
    end.
Proof.
  intros text keyword rest. simpl. unfold py_in. destruct (py_find keyword text); reflexivity.
Qed.

(** C4 (as amended): keywords are tried in order.  A keyword absent from
    the text is skipped.  For a keyword present, the window is the 500
    characters starting at its first occurrence (keyword included); if the
    window has no period the next keyword is tried, otherwise the result is
    the piece between the first and the second period of the window (or up
    to its end), stripped and cut to 200 characters.  When no keyword
    gives a value the result is ["See full narrative"]; every result is
    that string or at most 200 characters long. *)
Theorem extract_field_spec : forall text,
  extract_field text [] = str "See full narrative"
  /\ (forall keyword rest, py_find keyword text = None ->
        extract_field text (keyword :: rest) = extract_field text rest)
  /\ (forall keyword rest start, py_find keyword text = Some start ->
        ~ In "."%char (py_slice text start (start + 500)) ->
        extract_field text (keyword :: rest) = extract_field text rest)
  /\ (forall keyword rest start a b, py_find keyword text = Some start ->
        py_slice text start (start + 500) = a ++ "."%char :: b -> ~ In "."%char a ->
        extract_field text (keyword :: rest)
        = firstn 200 (py_strip (take_while not_period b)))
  /\ (forall keywords, extract_field text keywords = str "See full narrative"
                       \/ List.length (extract_field text keywords) <= 200).
Proof.
  intros text. split; [reflexivity|]. split; [|split; [|split]].
  - intros keyword rest Hf. rewrite extract_field_cons, Hf. reflexivity.
  - intros keyword rest start Hf Hno. rewrite extract_field_cons, Hf. cbv zeta.
    rewrite py_split_char_no_sep by exact Hno. reflexivity.
  - intros keyword rest start a b Hf Hw Ha. rewrite extract_field_cons, Hf. cbv zeta.
    rewrite Hw. destruct (py_split_char_first_sep a b Ha) as [ws Hws]. rewrite Hws.
    reflexivity.
  - induction keywords as [|kw rest IH]; [left; reflexivity|].
    rewrite extract_field_cons. destruct (py_find kw text); [|exact IH].
    cbv zeta. destruct (1 <? _); [|exact IH].
    right. apply firstn_le_length.
Qed.

(** C4 as stated fails: the first keyword found, ["SYNDROME CORRELATION"],
    is followed by no period, yet the result is not the fallback: the
    extraction moves on to ["Probable Syndrome"]. *)
Lemma extract_field_next_keyword :
  py_find (str "SYNDROME CORRELATION") narrative_demo = Some 35
  /\ py_in (str ".") (py_slice narrative_demo 35 535) = false
  /\ extract_field narrative_demo syndrome_keywords = str "Rhabdomyolysis"
  /\ extract_field narrative_demo syndrome_keywords <> str "See full narrative"
  /\ extract_field narrative_demo syndrome_keywords <> str "see full narrative".
Proof. vm_compute. repeat split; discriminate. Qed.

(* ================================================================== *)
(** ** Further properties of the store search *)

Lemma pystr_eqb_eq : forall a b, pystr_eqb a b = true <-> a = b.
Proof.
  intros a b. unfold pystr_eqb. destruct (list_eq_dec ascii_dec a b); split; congruence.
Qed.

Lemma pystr_eqb_refl : forall a, pystr_eqb a a = true.
Proof. intros a. apply pystr_eqb_eq. reflexivity. Qed.

Lemma length_insert_desc : forall x l, List.length (insert_desc x l) = S (List.length l).
Proof.
  intros x l. induction l as [|y l IH]; simpl; [reflexivity|].
  destruct (snd y <=? snd x)%Z; simpl; congruence.
Qed.

Lemma length_sort_desc : forall l, List.length (sort_desc l) = List.length l.
Proof.
  induction l as [|x l IH]; simpl; [reflexivity|]. rewrite length_insert_desc. congruence.
Qed.

Definition pair_desc (a b : stored_doc * Z) : Prop := (snd b <= snd a)%Z.

Lemma insert_desc_sorted : forall x l,
  StronglySorted pair_desc l -> StronglySorted pair_desc (insert_desc x l).
Proof.
  intros x l. induction l as [|y l IH]; intros H; simpl.
  - repeat constructor.
  - inversion H as [|? ? Hl Hy]; subst.
    destruct (Z.leb_spec (snd y) (snd x)) as [Hxy|Hxy].
    + constructor; [exact H|]. constructor; [exact Hxy|].
      eapply Forall_impl; [|exact Hy]. unfold pair_desc. intros z Hz. lia.
    + constructor; [apply IH; exact Hl|].
      apply Forall_forall. intros z Hz. apply in_insert_desc in Hz as [<-|Hz].
      * unfold pair_desc. lia.
      * rewrite Forall_forall in Hy. apply Hy. exact Hz.
Qed.

Lemma sort_desc_sorted : forall l, StronglySorted pair_desc (sort_desc l).
Proof.
  induction l as [|x l IH]; simpl; [constructor|]. apply insert_desc_sorted. exact IH.
Qed.

Lemma strongly_sorted_firstn : forall {A} (R : A -> A -> Prop) n l,
  StronglySorted R l -> StronglySorted R (firstn n l).
Proof.
  intros A R n. induction n as [|n IH]; intros [|x l] H; simpl; [constructor..|].
  inversion H as [|? ? Hl Hx]; subst. constructor; [apply IH; exact Hl|].
  apply Forall_forall. intros y Hy. rewrite Forall_forall in Hx. apply Hx.
  eapply in_firstn_in. exact Hy.
Qed.

Lemma strongly_sorted_filter : forall {A} (R : A -> A -> Prop) f l,
  StronglySorted R l -> StronglySorted R (filter f l).
Proof.
  intros A R f l H. induction H as [|x l Hl IH Hx]; simpl; [constructor|].
  destruct (f x); [|exact IH]. constructor; [exact IH|].
  apply Forall_forall. intros y Hy. apply filter_In in Hy as [Hy _].
  rewrite Forall_forall in Hx. apply Hx. exact Hy.
Qed.

Lemma strongly_sorted_map : forall {A B} (R : B -> B -> Prop) (g : A -> B) l,
  StronglySorted (fun a b => R (g a) (g b)) l -> StronglySorted R (map g l).
Proof.
  intros A B R g l H. induction H as [|x l Hl IH Hx]; simpl; constructor; [exact IH|].
  apply Forall_map. exact Hx.
Qed.

(** The results of a search filtered to a non-empty type [t] all have
    type [t], number at most [top_k], and each is the projection of a
    document of the collection with its score against the query. *)
Theorem vector_search_results_typed_bounded : forall sim collection query_embedding t top_k,
  t <> [] ->
  let results := vector_search sim collection query_embedding (Some t) top_k in
  Forall (fun r => rc_document_type r = t) results
  /\ List.length results <= top_k
  /\ Forall (fun r => exists d, In d collection
                        /\ r = project (d, sim query_embedding (sd_embedding d))) results.
Proof.
  intros sim collection v t top_k Ht results.
  unfold results, vector_search. rewrite match_stage_filter.
  split; [|split].
  - apply Forall_map, Forall_forall. intros p Hp. apply filter_In in Hp as [_ Hp].
    destruct t as [|c t]; [congruence|]. apply pystr_eqb_eq in Hp. exact Hp.
  - rewrite length_map. etransitivity; [apply filter_length_le|].
    unfold vector_search_stage. rewrite length_firstn. lia.
  - apply Forall_map, Forall_forall. intros p Hp. apply filter_In in Hp as [Hp _].
    unfold vector_search_stage in Hp.
    apply in_firstn_in, in_sort_desc, in_map_iff in Hp as [d [<- Hd]].
    exists d. split; [exact Hd | reflexivity].
Qed.

(** Every search returns its chunks in descending score order. *)
Theorem vector_search_sorted : forall sim collection query_embedding document_type top_k,
  StronglySorted score_desc (vector_search sim collection query_embedding document_type top_k).
Proof.
  intros. unfold vector_search. apply strongly_sorted_map. rewrite match_stage_filter.
  apply strongly_sorted_filter, strongly_sorted_firstn, sort_desc_sorted.
Qed.

(** Without a type filter the search returns exactly [min top_k n] chunks
    of a collection of [n] chunks. *)
Theorem vector_search_unfiltered_length : forall sim collection query_embedding top_k,
  List.length (vector_search sim collection query_embedding None top_k)
  = Nat.min top_k (List.length collection).
Proof.
  intros. unfold vector_search, vector_search_stage. simpl.
  rewrite length_map, length_firstn, length_sort_desc, length_map. reflexivity.
Qed.

(** A search filtered to a non-empty type [t] returns the chunks of type
    [t] among the results of the unfiltered search with the same [top_k]. *)
Theorem vector_search_filter_after_limit : forall sim collection query_embedding t top_k,
  t <> [] ->
  vector_search sim collection query_embedding (Some t) top_k
  = filter (fun r => pystr_eqb (rc_document_type r) t)
           (vector_search sim collection query_embedding None top_k).
Proof.
  intros sim collection v t top_k Ht. unfold vector_search. simpl.
  destruct t as [|c t]; [congruence|]. simpl.
  induction (vector_search_stage sim collection v top_k) as [|p l IH]; simpl; [reflexivity|].
  destruct (pystr_eqb (sd_document_type (fst p)) (c :: t)); simpl; congruence.
Qed.

(* ================================================================== *)
(** ** Further properties of the Context Formatter *)

Lemma format_items_cons : forall label i c rest,
  format_items label i (c :: rest) = item_block label i c ++ format_items label (S i) rest.
Proof.
  intros. cbn [format_items]. unfold item_block. repeat rewrite <- app_assoc. reflexivity.
Qed.

Lemma occurs_in_app_r : forall x a b, occurs_in x b -> occurs_in x (a ++ b).
Proof. intros x a b [p [q ->]]. exists (a ++ p), q. rewrite <- app_assoc. reflexivity. Qed.

Lemma occurs_in_app_l : forall x a b, occurs_in x a -> occurs_in x (a ++ b).
Proof.
  intros x a b [p [q ->]]. exists p, (q ++ b). repeat rewrite <- app_assoc. reflexivity.
Qed.

Lemma occurs_in_head : forall x b, occurs_in x (x ++ b).
Proof. intros x b. exists [], b. reflexivity. Qed.

Lemma format_items_nth : forall label items start i c,
  nth_error items i = Some c ->
  occurs_in (item_block label (start + i) c) (format_items label start items).
Proof.
  intros label items. induction items as [|d items IH]; intros start i c H.
  - destruct i; discriminate.
  - rewrite format_items_cons. destruct i as [|i]; simpl in H.
    + injection H as ->. rewrite Nat.add_0_r. apply occurs_in_head.
    + apply occurs_in_app_r. replace (start + S i) with (S start + i) by lia.
      apply IH. exact H.
Qed.

(** The formatted context renders the drug item at position [i] (from 0)
    as ["[Drug Knowledge i+1] name - section\n" + text + "\n\n"], and the
    syndrome items likewise, the chunk text untruncated. *)
Theorem format_context_items : forall context i c,
  (nth_error (b_drug_context context) i = Some c ->
   occurs_in (item_block (str "Drug") (S i) c) (format_context_for_llm context))
  /\ (nth_error (b_syndrome_context context) i = Some c ->
      occurs_in (item_block (str "Syndrome") (S i) c) (format_context_for_llm context)).
Proof.
  intros context i c. unfold format_context_for_llm. split; intros H.
  - do 2 apply occurs_in_app_r. apply occurs_in_app_l.
    apply (format_items_nth _ _ 1 i c H).
  - do 4 apply occurs_in_app_r. apply (format_items_nth _ _ 1 i c H).
Qed.

(* ================================================================== *)
(** ** Further properties of the narrative generator *)

Lemma occurs_in_firstn : forall n s, occurs_in (firstn n s) s.
Proof. intros n s. exists [], (skipn n s). symmetry. apply firstn_skipn. Qed.

Lemma occurs_in_In : forall x w s, occurs_in w s -> In x w -> In x s.
Proof.
  intros x w s [p [q ->]] H. apply in_or_app. right. apply in_or_app. left. exact H.
Qed.

Lemma py_split_char_prefix : forall s, exists w ws rest,
  py_split_char "." s = w :: ws /\ s = w ++ rest.
Proof.
  induction s as [|c s (w & ws & rest & Hs & Hp)].
  - exists [], [], []. split; reflexivity.
  - simpl. destruct (Ascii.eqb c ".").
    + exists [], (py_split_char "." s), (c :: s). split; reflexivity.
    + rewrite Hs. exists (c :: w), ws, rest. split; [reflexivity|]. rewrite Hp. reflexivity.
Qed.

Lemma py_split_char_pieces : forall s w, In w (py_split_char "." s) ->
  occurs_in w s /\ ~ In "."%char w.
Proof.
  induction s as [|c s IH]; intros w H.
  - destruct H as [<-|[]]. split; [apply occurs_in_nil | intros []].
  - simpl in H. destruct (Ascii.eqb c ".") eqn:E.
    + destruct H as [<-|H].
      * split; [apply occurs_in_nil | intros []].
      * destruct (IH w H) as [Ho Hn]. split; [|exact Hn].
        apply (occurs_in_app_r w [c] s). exact Ho.
    + destruct (py_split_char_prefix s) as (w0 & ws & rest & Hs & Hp).
      assert (Hw0 : In w0 (py_split_char "." s)) by (rewrite Hs; left; reflexivity).
      rewrite Hs in H. destruct H as [<-|H].
      * split.
        -- rewrite Hp. exists [], rest. reflexivity.
        -- intros [Hc|Hin].
           ++ subst c. discriminate.
           ++ apply (IH w0 Hw0). exact Hin.
      * assert (Hin : In w (py_split_char "." s)) by (rewrite Hs; right; exact H).
        destruct (IH w Hin) as [Ho Hn]. split; [|exact Hn].
        apply (occurs_in_app_r w [c] s). exact Ho.
Qed.

Lemma lstrip_suffix : forall s, exists p, s = p ++ lstrip s.
Proof.
  induction s as [|c s [p IH]]; [exists []; reflexivity|]. simpl.
  destruct (is_space c).
  - exists (c :: p). simpl. congruence.
  - exists []. reflexivity.
Qed.

Lemma lstrip_app_nonspace : forall l c, is_space c = false ->
  lstrip (l ++ [c]) = lstrip l ++ [c].
Proof.
  induction l as [|d l IH]; intros c Hc; simpl.
  - rewrite Hc. reflexivity.
  - destruct (is_space d); [apply IH; exact Hc | reflexivity].
Qed.

Lemma lstrip_head : forall s,
  match lstrip s with c :: _ => is_space c = false | [] => True end.
Proof.
  induction s as [|c s IH]; simpl; [exact I|].
  destruct (is_space c) eqn:E; [exact IH | exact E].
Qed.

Lemma py_strip_occurs : forall s, occurs_in (py_strip s) s.
Proof.
  intros s. unfold py_strip. destruct (lstrip_suffix s) as [p Hp].
  destruct (lstrip_suffix (rev (lstrip s))) as [q Hq].
  exists p, (rev q). rewrite Hp at 1. f_equal.
  rewrite <- rev_app_distr, <- Hq, rev_involutive. reflexivity.
Qed.

Lemma py_strip_head : forall s,
  match py_strip s with c :: _ => is_space c = false | [] => True end.
Proof.
  intros s. unfold py_strip. pose proof (lstrip_head s) as H.
  destruct (lstrip s) as [|c t]; simpl; [exact I|].
  rewrite lstrip_app_nonspace by exact H. rewrite rev_app_distr. simpl. exact H.
Qed.

Lemma extract_field_copied : forall text keywords,
  extract_field text keywords = fallback_text
  \/ (occurs_in (extract_field text keywords) text
      /\ ~ In "."%char (extract_field text keywords)
      /\ match extract_field text keywords with c :: _ => is_space c = false | [] => True end).
Proof.
  intros text. induction keywords as [|kw rest IH]; [left; reflexivity|].
  rewrite extract_field_cons. destruct (py_find kw text) as [start|]; [|exact IH].
  cbv zeta. destruct (1 <? _) eqn:E; [|exact IH]. right.
  apply Nat.ltb_lt in E.
  set (section := py_slice text start (start + 500)) in *.
  set (piece := nth 1 (py_split_char "." section) []).
  assert (Hin : In piece (py_split_char "." section)) by (apply nth_In; exact E).
  destruct (py_split_char_pieces section piece Hin) as [Ho Hn].
  assert (Hsec : occurs_in section text).
  { unfold section, py_slice. eapply occurs_in_trans; [apply occurs_in_firstn|].
    exists (firstn start text), []. rewrite app_nil_r. symmetry. apply firstn_skipn. }
  assert (Hfs : occurs_in (firstn 200 (py_strip piece)) piece).
  { eapply occurs_in_trans; [apply occurs_in_firstn | apply py_strip_occurs]. }
  split; [|split].
  - eapply occurs_in_trans; [exact Hfs|]. eapply occurs_in_trans; [exact Ho | exact Hsec].
  - intros H. apply Hn. eapply occurs_in_In; [exact Hfs | exact H].
  - pose proof (py_strip_head piece) as Hh.
    destruct (py_strip piece) as [|c t]; simpl; exact Hh.
Qed.

(** The generated narrative holds the case's patient id, drug name,
    duration and stop reason unchanged and the chat answer to the system
    message and the built prompt as its text; each of its five summary
    fields is either ["See full narrative"] or a piece of that text that
    contains no period and does not start with whitespace. *)
Theorem generate_narrative_fields : forall chat generated_at patient_id age gender drug_name
    days stop_reason retrieved_context,
  let n := generate_narrative chat generated_at patient_id age gender drug_name days
             stop_reason retrieved_context in
  cn_patient_id n = patient_id /\ cn_drug_name n = drug_name
  /\ cn_duration_days n = days /\ cn_stop_reason n = stop_reason
  /\ cn_generated_at n = generated_at
  /\ cn_narrative n = chat system_message
       (build_prompt patient_id age gender drug_name days stop_reason retrieved_context)
  /\ Forall (fun f => f = str "See full narrative"
                      \/ (occurs_in f (cn_narrative n) /\ ~ In "."%char f
                          /\ match f with c :: _ => is_space c = false | [] => True end))
       [cn_probable_syndrome n; cn_mechanism n; cn_seriousness_level n;
        cn_causality_category n; cn_clinical_advice n].
Proof.
  intros. unfold n, generate_narrative. cbn [cn_patient_id cn_drug_name cn_duration_days
    cn_stop_reason cn_generated_at cn_narrative cn_probable_syndrome cn_mechanism
    cn_seriousness_level cn_causality_category cn_clinical_advice].
  do 6 (split; [reflexivity|]).
  repeat (apply Forall_cons; [apply extract_field_copied|]). apply Forall_nil.
Qed.

(* ================================================================== *)
(** ** Further properties of the reports *)

(** [x] is one of the pieces of a right-nested concatenation. *)
Ltac occurs_seg :=
  first [ apply occurs_in_head | apply occurs_in_app_r; occurs_seg ].



(** The report [save_report] writes into ["reports"] (as the API's
    narrative endpoint does) is at ["reports/clinical_report_<patient_id>.txt"],
    and the API's download of that patient id returns it. *)
Theorem save_then_download : forall fs narrative,
  let (path, fs') := save_report fs narrative (str "reports") in
  path = str "reports/clinical_report_" ++ cn_patient_id narrative ++ str ".txt"
  /\ download_report fs' (cn_patient_id narrative) = Some (format_report narrative).
Proof.
  intros fs narrative. unfold save_report, download_report, write_file.
  assert (Hp : os_path_join (str "reports")
                 (str "clinical_report_" ++ cn_patient_id narrative ++ str ".txt")
               = str "reports/clinical_report_" ++ cn_patient_id narrative ++ str ".txt")
    by reflexivity.
  rewrite Hp. split; [reflexivity|]. rewrite pystr_eqb_refl. reflexivity.
Qed.


(** The report holds, verbatim, the generation time, the case fields, the
    duration in decimal, the full narrative and the five summary fields. *)
Theorem format_report_contents : forall narrative,
  Forall (fun x => occurs_in x (format_report narrative))
    [cn_generated_at narrative; cn_patient_id narrative; cn_drug_name narrative;
     Z_to_pystr (cn_duration_days narrative); cn_stop_reason narrative;
     cn_narrative narrative; cn_probable_syndrome narrative; cn_mechanism narrative;
     cn_seriousness_level narrative; cn_causality_category narrative;
     cn_clinical_advice narrative].
Proof.
  intros narrative. unfold format_report.
  repeat (apply Forall_cons; [occurs_seg|]). apply Forall_nil.
Qed.

(** In the API's narrative flow the prompt sent to the model holds the
    formatted retrieval context, hence the full text of every retrieved
    drug and syndrome chunk. *)
Theorem prompt_contains_chunks : forall context patient_id age gender drug_name days
    stop_reason i c,
  nth_error (b_drug_context context) i = Some c
  \/ nth_error (b_syndrome_context context) i = Some c ->
  occurs_in (ci_text c)
    (build_prompt patient_id age gender drug_name days stop_reason
                  (format_context_for_llm context)).
Proof.
  intros context patient_id age gender drug_name days stop_reason i c Hc.
  assert (Hctx : occurs_in (format_context_for_llm context)
                   (build_prompt patient_id age gender drug_name days stop_reason
                                 (format_context_for_llm context)))
    by (unfold build_prompt; occurs_seg).
  eapply occurs_in_trans; [|exact Hctx].
  assert (Hi : exists label, occurs_in (item_block label (S i) c) (format_context_for_llm context)).
  { unfold format_context_for_llm. destruct Hc as [Hc|Hc].
    - exists (str "Drug"). do 2 apply occurs_in_app_r. apply occurs_in_app_l.
      apply (format_items_nth _ _ 1 i c Hc).
    - exists (str "Syndrome"). do 4 apply occurs_in_app_r.
      apply (format_items_nth _ _ 1 i c Hc). }
  destruct Hi as [label Hi]. eapply occurs_in_trans; [|exact Hi].
  unfold item_block. occurs_seg.
Qed.

(* ================================================================== *)
(** ** Further properties of the chunker and the ingestion *)

Lemma occurs_in_skipn : forall n s, occurs_in (skipn n s) s.
Proof. intros n s. exists (firstn n s), []. rewrite app_nil_r. symmetry. apply firstn_skipn. Qed.

Lemma lazy_body_eq : forall b, lazy_body b
  = if header_ahead b || dollar_ahead b then []
    else match b with [] => [] | c :: b' => c :: lazy_body b' end.
Proof. intros [|c b]; reflexivity. Qed.

Lemma lazy_body_prefix : forall b, exists rest, b = lazy_body b ++ rest.
Proof.
  induction b as [|c b [rest IH]]; rewrite lazy_body_eq.
  - destruct (header_ahead [] || dollar_ahead []); exists []; reflexivity.
  - destruct (header_ahead (c :: b) || dollar_ahead (c :: b)).
    + exists (c :: b). reflexivity.
    + exists rest. simpl. congruence.
Qed.

Lemma section_search_body : forall section content g,
  section_search section content = Some g -> occurs_in g content.
Proof.
  intros section content g H. apply search_from_some in H as [pre [suf [-> Hm]]].
  apply occurs_in_app_r. unfold section_match_at in Hm.
  destruct (is_prefix _ suf); [|discriminate].
  destruct (try_desc _ _) as [k|]; [|discriminate]. injection Hm as <-.
  eapply occurs_in_trans; [|apply occurs_in_skipn].
  eapply occurs_in_trans; [|apply occurs_in_skipn].
  destruct (lazy_body_prefix (skipn (S k) (skipn (List.length section + 1) suf))) as [rest Hr].
  exists [], rest. simpl. exact Hr.
Qed.

Lemma py_strip_last : forall s,
  match rev (py_strip s) with c :: _ => is_space c = false | [] => True end.
Proof. intros s. unfold py_strip. rewrite rev_involutive. apply lstrip_head. Qed.

(** Every chunk of a file after the first is
    ["Document: <name>\nSection: <section>\n\n" + body], where the body is
    a piece of the file's content with no leading or trailing whitespace;
    the first chunk holds the whole content after its
    ["Document: <name>\n\n"] heading. *)
Theorem chunk_texts_from_content : forall read_file file_path document_type,
  let content := read_file file_path in
  exists c0 rest,
    chunk_markdown_file read_file file_path document_type = c0 :: rest
    /\ cd_text c0 = str "Document: " ++ cd_name c0 ++ str (nl ++ nl) ++ content
    /\ Forall (fun c => exists body,
                 cd_text c = str "Document: " ++ cd_name c ++ str (nl ++ "Section: ")
                             ++ cd_section c ++ str (nl ++ nl) ++ body
                 /\ occurs_in body content
                 /\ match body with d :: _ => is_space d = false | [] => True end
                 /\ match rev body with d :: _ => is_space d = false | [] => True end) rest.
Proof.
  intros read_file file_path document_type content.
  eexists; eexists. split; [reflexivity|]. split; [reflexivity|]. cbv zeta.
  fold content. generalize (sections_for document_type) as sections.
  induction sections as [|sec rest IH]; simpl; [constructor|].
  destruct (section_search sec content) as [g|] eqn:Hg; [|exact IH].
  constructor; [|exact IH].
  exists (py_strip g). split; [reflexivity|]. split; [|split].
  - eapply occurs_in_trans; [apply py_strip_occurs|].
    eapply section_search_body. exact Hg.
  - apply py_strip_head.
  - apply py_strip_last.
Qed.

Lemma chunk_markdown_file_nonempty : forall read_file file_path document_type,
  1 <= List.length (chunk_markdown_file read_file file_path document_type).
Proof. intros. simpl. lia. Qed.

Lemma ingest_directory_docs : forall read_file embed token_count md_files document_type
    collection,
  let (n, collection') := ingest_directory read_file embed token_count md_files
                            document_type collection in
  exists docs, collection' = collection ++ docs /\ List.length docs = n
    /\ List.length md_files <= n
    /\ Forall (fun p => sd_document_type (fst p) = document_type
                        /\ sd_embedding (fst p) = embed (sd_chunk_text (fst p))
                        /\ md_token_count (snd p) = token_count (sd_chunk_text (fst p))
                        /\ In (md_file_name (snd p)) (map path_name md_files)) docs.
Proof.
  intros. unfold ingest_directory.
  set (docs := flat_map _ md_files).
  exists docs. split; [|split; [reflexivity|split]].
  - destruct docs; [rewrite app_nil_r|]; reflexivity.
  - unfold docs. clear docs. induction md_files as [|f fs IH]; cbn [flat_map List.length];
      [lia|].
    rewrite length_app, length_map. pose proof (chunk_markdown_file_nonempty read_file f
      document_type). lia.
  - apply Forall_forall. intros p Hp. unfold docs in Hp.
    apply in_flat_map in Hp as [f [Hf Hp]]. apply in_map_iff in Hp as [c [<- _]].
    simpl. split; [reflexivity|split; [reflexivity|split; [reflexivity|]]].
    apply in_map. exact Hf.
Qed.

(** [ingest_directory] appends its documents to the collection (leaving it
    unchanged when there are none) and returns their number, at least one
    per file; each document has the directory's type, the embedding and
    token count of its own text and the name of a file of the directory. *)
Theorem ingest_directory_appends : forall read_file embed token_count md_files document_type
    collection,
  let (n, collection') := ingest_directory read_file embed token_count md_files
                            document_type collection in
  exists docs, collection' = collection ++ docs /\ List.length docs = n
    /\ List.length md_files <= n
    /\ Forall (fun p => sd_document_type (fst p) = document_type
                        /\ sd_embedding (fst p) = embed (sd_chunk_text (fst p))
                        /\ md_token_count (snd p) = token_count (sd_chunk_text (fst p))
                        /\ In (md_file_name (snd p)) (map path_name md_files)) docs.
Proof. intros. apply ingest_directory_docs. Qed.

Lemma count_documents_type_app : forall t a b,
  count_documents_type t (a ++ b) = count_documents_type t a + count_documents_type t b.
Proof. intros. unfold count_documents_type. rewrite filter_app, length_app. reflexivity. Qed.

Lemma count_documents_type_all : forall t t' docs,
  Forall (fun p => sd_document_type (fst p) = t) docs ->
  count_documents_type t' docs = if pystr_eqb t t' then List.length docs else 0.
Proof.
  intros t t' docs H. unfold count_documents_type.
  induction H as [|p docs Hp H IH]; simpl; [destruct (pystr_eqb t t'); reflexivity|].
  rewrite Hp. destruct (pystr_eqb t t'); simpl; rewrite IH; reflexivity.
Qed.

Lemma ingestion_steps : forall read_file embed token_count drug_files syndrome_files
    (c0 : vcollection),
  let '(drug_count, syndrome_count, stats, _) :=
    let (drug_count, c1) :=
      ingest_directory read_file embed token_count drug_files (str "drug") c0 in
    let (syndrome_count, c2) :=
      ingest_directory read_file embed token_count syndrome_files (str "syndrome") c1 in
    (drug_count, syndrome_count, get_stats c2, c2) in
  stats = (List.length c0 + drug_count + syndrome_count,
           count_documents_type (str "drug") c0 + drug_count,
           count_documents_type (str "syndrome") c0 + syndrome_count)
  /\ List.length drug_files <= drug_count /\ List.length syndrome_files <= syndrome_count.
Proof.
  intros.
  pose proof (ingest_directory_docs read_file embed token_count drug_files (str "drug") c0)
    as Hd.
  destruct (ingest_directory read_file embed token_count drug_files (str "drug") c0)
    as [dc c1].
  destruct Hd as (d & -> & Hdn & Hdf & Hdt).
  pose proof (ingest_directory_docs read_file embed token_count syndrome_files
                (str "syndrome") (c0 ++ d)) as Hs.
  destruct (ingest_directory read_file embed token_count syndrome_files (str "syndrome")
              (c0 ++ d)) as [sc c2].
  destruct Hs as (sd & -> & Hsn & Hsf & Hst).
  split; [|split; assumption].
  assert (Hdt' : Forall (fun p => sd_document_type (fst p) = str "drug") d)
    by (eapply Forall_impl; [|exact Hdt]; intros p Hp; apply Hp).
  assert (Hst' : Forall (fun p => sd_document_type (fst p) = str "syndrome") sd)
    by (eapply Forall_impl; [|exact Hst]; intros p Hp; apply Hp).
  unfold get_stats. rewrite !count_documents_type_app, !length_app.
  rewrite (count_documents_type_all _ _ d Hdt'), (count_documents_type_all _ _ d Hdt').
  rewrite (count_documents_type_all _ _ sd Hst'), (count_documents_type_all _ _ sd Hst').
  vm_compute (pystr_eqb _ _). cbv beta iota. subst dc sc. f_equal; [f_equal|]; lia.
Qed.

(** The statistics [main] prints are the previous counts (none after a
    reset) plus the returned drug and syndrome counts: the total grows by
    both, the drug count by the drug ingestion and the syndrome count by
    the syndrome ingestion only. *)
Theorem ingestion_main_stats : forall read_file embed token_count reset drug_files
    syndrome_files collection,
  let '(drug_count, syndrome_count, stats, _) :=
    ingestion_main read_file embed token_count reset drug_files syndrome_files collection in
  let c0 := if reset then [] else collection in
  stats = (List.length c0 + drug_count + syndrome_count,
           count_documents_type (str "drug") c0 + drug_count,
           count_documents_type (str "syndrome") c0 + syndrome_count)
  /\ List.length drug_files <= drug_count /\ List.length syndrome_files <= syndrome_count.
Proof.
  intros. unfold ingestion_main. destruct reset.
  - exact (ingestion_steps read_file embed token_count drug_files syndrome_files []).
  - exact (ingestion_steps read_file embed token_count drug_files syndrome_files collection).
Qed.

(* ================================================================== *)
(** ** Witnesses: the theorems above applied at concrete inputs *)

Lemma empty_results_both_divisions_witness :
  (forall d, In d drug_only_collection -> accepts (Some (str "syndrome")) d = false)
  /\ vector_search dot drug_only_collection [1; 0]%Z (Some (str "syndrome")) 5 = []
  /\ occurs_in (drug_header ++ syndrome_header) (format_context_for_llm empty_bundle).
Proof.
  assert (H : forall d, In d drug_only_collection -> accepts (Some (str "syndrome")) d = false).
  { intros d Hd. unfold drug_only_collection, demo_collection in Hd. simpl in Hd.
    repeat (destruct Hd as [<- | Hd]; [vm_compute; reflexivity|]). destruct Hd. }
  split; [exact H|].
  destruct (empty_results_both_divisions dot drug_only_collection [1; 0]%Z
              (Some (str "syndrome")) 5 empty_bundle H) as [Hs [_ [_ [Hd _]]]].
  split; [exact Hs | apply Hd; reflexivity].
Defined.

Lemma chunk_count_witness :
  List.length (chunk_markdown_file (fun _ => label_free_doc) (str "atorvastatin.md") (str "drug"))
  = 1.
Proof.
  apply (chunk_count (fun _ => label_free_doc) (str "atorvastatin.md") (str "drug")).
  intros section Hs Hocc. apply py_in_spec in Hocc. revert Hocc.
  unfold sections_for, drug_sections in Hs. vm_compute in Hs.
  repeat (destruct Hs as [<- | Hs]; [vm_compute; discriminate|]). destruct Hs.
Defined.

Lemma chunk_names_witness :
  doc_name_of (str "kb/atorvastatin.md") leading_line_doc = str "Atorvastatin".
Proof.
  destruct (chunk_names (fun _ => leading_line_doc) (str "kb/atorvastatin.md") (str "drug"))
    as [_ [_ [_ [_ H]]]].
  rewrite (H [" "%char] "A"%char (str "torvastatin") (str ("MONITORING:" ++ nl ++ "CK levels"))).
  - vm_compute. reflexivity.
  - repeat constructor.
  - reflexivity.
  - repeat constructor.
  - reflexivity.
Defined.

Lemma extract_field_spec_witness :
  extract_field correlation_text [str "SYNDROME CORRELATION"; str "Probable Syndrome"]
  = str "Rhabdomyolysis is likely".
Proof.
  destruct (extract_field_spec correlation_text) as [_ [_ [_ [H _]]]].
  rewrite (H (str "SYNDROME CORRELATION") [str "Probable Syndrome"] 0
             (str "SYNDROME CORRELATION: statin exposure")
             (str " Rhabdomyolysis is likely. More text.")).
  - vm_compute. reflexivity.
  - vm_compute. reflexivity.
  - vm_compute. reflexivity.
  - vm_compute. intuition discriminate.
Defined.

Lemma vector_search_results_typed_bounded_witness :
  str "syndrome" <> []
  /\ Forall (fun r => rc_document_type r = str "syndrome")
       (vector_search dot demo_collection [0; 1]%Z (Some (str "syndrome")) 2).
Proof.
  assert (Ht : str "syndrome" <> []) by discriminate.
  split; [exact Ht|].
  exact (proj1 (vector_search_results_typed_bounded dot demo_collection [0; 1]%Z
                  (str "syndrome") 2 Ht)).
Defined.

Lemma vector_search_filter_after_limit_witness :
  str "syndrome" <> []
  /\ vector_search dot demo_collection [1; 0]%Z (Some (str "syndrome")) 5
     = filter (fun r => pystr_eqb (rc_document_type r) (str "syndrome"))
              (vector_search dot demo_collection [1; 0]%Z None 5).
Proof.
  assert (Ht : str "syndrome" <> []) by discriminate.
  split; [exact Ht|].
  exact (vector_search_filter_after_limit dot demo_collection [1; 0]%Z (str "syndrome") 5 Ht).
Defined.

Lemma format_context_items_witness :
  nth_error (b_drug_context demo_bundle) 0 = Some demo_drug_item
  /\ occurs_in (item_block (str "Drug") 1 demo_drug_item) (format_context_for_llm demo_bundle).
Proof.
  assert (H : nth_error (b_drug_context demo_bundle) 0 = Some demo_drug_item) by reflexivity.
  split; [exact H|].
  exact (proj1 (format_context_items demo_bundle 0 demo_drug_item) H).
Defined.


Lemma prompt_contains_chunks_witness :
  nth_error (b_syndrome_context demo_bundle) 0 = Some demo_syndrome_item
  /\ occurs_in (ci_text demo_syndrome_item)
       (build_prompt (str "PT-2024-001") 68 (str "Male") (str "Atorvastatin") 45
                     (str "Muscle pain") (format_context_for_llm demo_bundle)).
Proof.
  assert (H : nth_error (b_syndrome_context demo_bundle) 0 = Some demo_syndrome_item)
    by reflexivity.
  split; [exact H|].
  exact (prompt_contains_chunks demo_bundle (str "PT-2024-001") 68 (str "Male")
           (str "Atorvastatin") 45 (str "Muscle pain") 0 demo_syndrome_item (or_intror H)).
Defined.
